(** * quant_kiwoom: the synchronous facade [Market] (src/market/market.py)

    The facade turns the broker's callback API into blocking calls.  A
    caller thread emits a request signal and then waits: on a
    [queue.Queue] that the event thread fills, or in a [time.sleep(1)]
    polling loop on a dictionary that the event thread writes.

    The embedding keeps that shape.  A method of [Market] is a [Thread]:
    a sequence of atomic actions on the shared [World] (one Python
    statement is one or two actions), bound with continuations.  [exec]
    gives each action its meaning, [step] runs one action of a thread,
    and [run] runs a thread against a script of event-thread activity,
    one batch for every moment the caller waits.  The [while True] loops
    carry a fuel argument that bounds the number of iterations; a loop
    that used its fuel ends in [OutOfFuel], which stands for "still
    looping".

    Outside market.py and therefore not embedded: the decorators
    [@trace], [@request_api_method] and [@order_api_method] (the
    embedding is of the decorated bodies),
    [KiwoomAPIUtils.create_request_name] (a section variable), and
    [MarketData] with the event thread that fills it (modelled from the
    spec, see [event_action]). *)

From stdpp Require Import gmap strings list pretty.
From Stdlib Require Import ZArith Lia.

Open Scope Z_scope.

(** ** Values and queues *)

(** The Python values that travel through the queues: a login result or a
    deposit ([int]), an order number ([str]), the stock codes matching a
    condition ([List[str]]), the conditions ([List[Dict]] of name and
    index). *)
Inductive value : Type :=
| VInt (z : Z)
| VStr (s : string)
| VStrList (l : list string)
| VConditions (l : list (string * Z)).

(** [login_result == 0] *)
Definition eq_int (v : value) (n : Z) : bool :=
  match v with
  | VInt z => z =? n
  | _ => false
  end.

(** [queue.Queue(maxsize)]: FIFO; [maxsize = 0] means unbounded, as in
    Python. *)
Record Queue : Type := mkQueue { maxsize : nat; items : list value }.

Definition Queue_new (n : nat) : Queue := mkQueue n [].

Definition Queue_full (q : Queue) : bool :=
  (0 <? maxsize q)%nat && (maxsize q <=? length (items q))%nat.

(** [q.put(v)]: [None] when the queue is full (the producer would block). *)
Definition Queue_put (v : value) (q : Queue) : option Queue :=
  if Queue_full q then None else Some (mkQueue (maxsize q) (items q ++ [v])).

(** [q.get()]: [None] when the queue is empty (the consumer blocks). *)
Definition Queue_get (q : Queue) : option (value * Queue) :=
  match items q with
  | [] => None
  | v :: rest => Some (v, mkQueue (maxsize q) rest)
  end.

(** Queue objects live in a heap and are named by their address, so that
    two dictionary entries, or a dictionary entry and a local variable of
    a thread, can name the same object. *)
Definition loc : Type := nat.

(** ** Time *)

(** A [datetime.datetime]: the proleptic Gregorian ordinal of its date
    ([toordinal()]) and the microseconds since midnight. *)
Record datetime : Type := mkDatetime { date_ordinal : Z; time_us : Z }.

Definition us_per_second : Z := 1000000.
Definition us_per_day : Z := 86400 * us_per_second.

(** [date(1900, 1, 1).toordinal()] *)
Definition ordinal_1900_01_01 : Z := 693596.

(** [d.replace(year=1900, month=1, day=1)] *)
Definition replace_1900_01_01 (d : datetime) : datetime :=
  mkDatetime ordinal_1900_01_01 (time_us d).

(** [a - b], a [timedelta], held as its signed number of microseconds. *)
Definition datetime_sub (a b : datetime) : Z :=
  (date_ordinal a - date_ordinal b) * us_per_day + (time_us a - time_us b).

(** [td.total_seconds() > n] for an integer [n].  [total_seconds()] is the
    microsecond count divided by [10**6], correctly rounded to a float.
    The counts of a session are far below [2**53] and [n] is a small
    integer, so both are exact and rounding is monotone: the comparison
    is that of the count with [n * 10**6]. *)
Definition total_seconds_gt (td n : Z) : bool := n * us_per_second <? td.

(** The clock after [us] more microseconds. *)
Definition datetime_add_us (d : datetime) (us : Z) : datetime :=
  mkDatetime (date_ordinal d + (time_us d + us) / us_per_day)
             ((time_us d + us) mod us_per_day).

(** ** The records the facade passes around *)

(** [order_dict] of [request_order]:
    '구분' ('매도' or '매수'), '주식코드', '수량', '가격', '시장가'. *)
Record order_dict : Type := mkOrder {
  order_side : string;
  order_stock_code : string;
  order_quantity : Z;
  order_price : Z;
  order_market : bool
}.

(** An entry of [price_info]:
    '체결시간', '현재가', '시가', '고가', '저가'. *)
Record PriceInfo : Type := mkPriceInfo {
  trade_time : datetime;
  current_price : Z;
  open_price : Z;
  high_price : Z;
  low_price : Z
}.

(** An entry of [ask_bid_info]:
    '호가시간', '매수호가정보', '매도호가정보' (lists of (price, quantity)). *)
Record AskBidInfo : Type := mkAskBidInfo {
  quote_time : datetime;
  bid_levels : list (Z * Z);
  ask_levels : list (Z * Z)
}.

(** An entry of [balance]:
    '종목코드', '종목명', '보유수량', '주문가능수량', '매입단가'. *)
Record Holding : Type := mkHolding {
  holding_code : string;
  holding_name : string;
  holding_quantity : Z;
  holding_available : Z;
  holding_unit_cost : Z
}.

(** ** Signals, log records and the trace *)

(** The signals of [ClientSignalHandler] that [Market] emits, with their
    arguments. *)
Inductive signal : Type :=
| login_request_signal
| account_number_request_signal
| balance_request_signal (request_name : string)
| condition_request_signal
| condition_search_request_signal (condition_name : string) (condition_index : Z)
| deposit_request_signal (request_name : string)
| order_request_signal (order : order_dict) (request_name : string)
| price_register_request_signal (stock_code_list : list string) (is_add : bool)
| ask_bid_register_request_signal (stock_code_list : list string) (is_add : bool).

(** A piece of a log message: literal text, or an interpolated value of an
    f-string. *)
Inductive fragment : Type :=
| Lit (s : string)
| FStr (s : string)
| FTime (d : datetime).

(** What a caller thread does that can be seen from outside, in order. *)
Inductive event : Type :=
| Emitted (s : signal)
| Slept (seconds : Z)
| Warned (message : list fragment).

(** ** The shared state *)

(** The attributes of [MarketData] that market.py reads and writes. *)
Record MarketData : Type := mkMarketData {
  login_result : Queue;
  condition_list : Queue;
  condition_name_to_result : gmap string loc;
  request_name_to_tr_data : gmap string loc;
  balance : gmap string Holding;
  order_number_to_info : gmap string (gmap string string);
  price_info : gmap string PriceInfo;
  ask_bid_info : gmap string AskBidInfo
}.

(** The whole world of a run: the shared data, the heap of queue objects
    the dictionaries point into, the number of request names issued so
    far, the wall clock, and the trace of the callers' visible effects. *)
Record World : Type := mkWorld {
  data : MarketData;
  heap : list Queue;
  issued : nat;
  clock : datetime;
  trace : list event
}.

Definition with_data (d : MarketData) (w : World) : World :=
  mkWorld d (heap w) (issued w) (clock w) (trace w).
Definition with_heap (h : list Queue) (w : World) : World :=
  mkWorld (data w) h (issued w) (clock w) (trace w).
Definition with_issued (n : nat) (w : World) : World :=
  mkWorld (data w) (heap w) n (clock w) (trace w).
Definition with_clock (c : datetime) (w : World) : World :=
  mkWorld (data w) (heap w) (issued w) c (trace w).
Definition with_trace (t : list event) (w : World) : World :=
  mkWorld (data w) (heap w) (issued w) (clock w) t.

Definition with_login_result (q : Queue) (d : MarketData) : MarketData :=
  mkMarketData q (condition_list d) (condition_name_to_result d)
    (request_name_to_tr_data d) (balance d) (order_number_to_info d)
    (price_info d) (ask_bid_info d).
Definition with_condition_list (q : Queue) (d : MarketData) : MarketData :=
  mkMarketData (login_result d) q (condition_name_to_result d)
    (request_name_to_tr_data d) (balance d) (order_number_to_info d)
    (price_info d) (ask_bid_info d).
Definition with_condition_name_to_result (m : gmap string loc) (d : MarketData) : MarketData :=
  mkMarketData (login_result d) (condition_list d) m
    (request_name_to_tr_data d) (balance d) (order_number_to_info d)
    (price_info d) (ask_bid_info d).
Definition with_request_name_to_tr_data (m : gmap string loc) (d : MarketData) : MarketData :=
  mkMarketData (login_result d) (condition_list d) (condition_name_to_result d)
    m (balance d) (order_number_to_info d) (price_info d) (ask_bid_info d).
Definition with_balance (m : gmap string Holding) (d : MarketData) : MarketData :=
  mkMarketData (login_result d) (condition_list d) (condition_name_to_result d)
    (request_name_to_tr_data d) m (order_number_to_info d)
    (price_info d) (ask_bid_info d).
Definition with_order_number_to_info (m : gmap string (gmap string string)) (d : MarketData) : MarketData :=
  mkMarketData (login_result d) (condition_list d) (condition_name_to_result d)
    (request_name_to_tr_data d) (balance d) m (price_info d) (ask_bid_info d).
Definition with_price_info (m : gmap string PriceInfo) (d : MarketData) : MarketData :=
  mkMarketData (login_result d) (condition_list d) (condition_name_to_result d)
    (request_name_to_tr_data d) (balance d) (order_number_to_info d)
    m (ask_bid_info d).
Definition with_ask_bid_info (m : gmap string AskBidInfo) (d : MarketData) : MarketData :=
  mkMarketData (login_result d) (condition_list d) (condition_name_to_result d)
    (request_name_to_tr_data d) (balance d) (order_number_to_info d)
    (price_info d) m.

(** The two dictionaries whose values are queue objects. *)
Inductive table : Type :=
| ConditionNameToResult
| RequestNameToTrData.

Definition table_of (t : table) (d : MarketData) : gmap string loc :=
  match t with
  | ConditionNameToResult => condition_name_to_result d
  | RequestNameToTrData => request_name_to_tr_data d
  end.

Definition with_table (t : table) (m : gmap string loc) (d : MarketData) : MarketData :=
  match t with
  | ConditionNameToResult => with_condition_name_to_result m d
  | RequestNameToTrData => with_request_name_to_tr_data m d
  end.

(** ** Exceptions *)

(** The only exception the modelled statements raise: a subscript or a
    [del] on a key the dictionary does not have. *)
Inductive exn : Type :=
| KeyError (key : string).

(** ** Atomic actions of a caller thread *)

(** One constructor per kind of statement of market.py; the index is the
    type of the value the statement produces. *)
Inductive action : Type -> Type :=
| CreateRequestName (type : string) : action string
    (* KiwoomAPIUtils.create_request_name(type) *)
| NewQueue (n : nat) : action loc
    (* queue.Queue(maxsize=n) *)
| SetItem (t : table) (key : string) (q : loc) : action unit
    (* self._data.t[key] = q *)
| GetItem (t : table) (key : string) : action loc
    (* self._data.t[key] *)
| DelItem (t : table) (key : string) : action unit
    (* del self._data.t[key] *)
| Get (q : loc) : action value
    (* q.get() *)
| GetLoginResult : action value
    (* self._data.login_result.get() *)
| GetConditionList : action value
    (* self._data.condition_list.get() *)
| Emit (s : signal) : action unit
    (* self._sig.s.emit(...) *)
| ReadBalance : action (gmap string Holding)
    (* self._data.balance *)
| OrderInfoItem (order_number : string) : action (gmap string string)
    (* self._data.order_number_to_info[order_number] *)
| PriceInfoItem (stock_code : string) : action PriceInfo
    (* self._data.price_info[stock_code] *)
| AskBidInfoItem (stock_code : string) : action AskBidInfo
    (* self._data.ask_bid_info[stock_code] *)
| Sleep (seconds : Z) : action unit
    (* time.sleep(seconds) *)
| Now : action datetime
    (* datetime.datetime.now() *)
| Warning (message : list fragment) : action unit.
    (* logger.warning(message) *)

(** What one action does: it completes with a value and a new world, it
    raises, or it cannot complete yet (a [get] on an empty queue). *)
Inductive exec_result (B : Type) : Type :=
| Done (b : B) (w : World)
| Throw (e : exn)
| Wait.

Arguments Done {B} b w.
Arguments Throw {B} e.
Arguments Wait {B}.

(** ** Threads *)

(** A caller thread: finished with a value, finished with an exception,
    out of loop fuel, or about to perform an action and continue with its
    value ([k]) or handle its exception ([h]; [Raise] where the source has
    no [try]). *)
Inductive Thread (A : Type) : Type :=
| Return (a : A)
| Raise (e : exn)
| OutOfFuel
| Act {B : Type} (a : action B) (k : B -> Thread A) (h : exn -> Thread A).

Arguments Return {A} a.
Arguments Raise {A} e.
Arguments OutOfFuel {A}.
Arguments Act {A B} a k h.

Declare Scope thread_scope.
Delimit Scope thread_scope with thread.
Bind Scope thread_scope with Thread.

Notation "'let!' x ':=' a 'in' k" := (Act a (fun x => k%thread) Raise)
  (at level 10, x name, a at level 100, k at level 200,
   format "'[v' 'let!'  x  ':='  a  'in' '/' k ']'") : thread_scope.
Notation "'do!' a 'in' k" := (Act a (fun _ => k%thread) Raise)
  (at level 10, a at level 100, k at level 200,
   format "'[v' 'do!'  a  'in' '/' k ']'") : thread_scope.
Notation "'try!' x ':=' a 'in' k 'except' e '=>' r" :=
  (Act a (fun x => k%thread) (fun e => r%thread))
  (at level 10, x name, e name, a at level 100, k at level 200, r at level 200,
   format "'[v' 'try!'  x  ':='  a  'in' '/' k '/' 'except'  e  '=>'  r ']'") : thread_scope.

(** What a thread is doing, without its continuation. *)
Inductive status (A : Type) : Type :=
| Returned (a : A)
| Raised (e : exn)
| Looping
| Before {B : Type} (a : action B).

Arguments Returned {A} a.
Arguments Raised {A} e.
Arguments Looping {A}.
Arguments Before {A B} a.

Definition status_of {A : Type} (t : Thread A) : status A :=
  match t with
  | Return a => Returned a
  | Raise e => Raised e
  | OutOfFuel => Looping
  | Act a _ _ => Before a
  end.

(** ** The event thread *)

(** Modelled from the spec: the event-delivery collaborator, which is not
    part of market.py.  By sections 4.1 and 6 it deposits each correlated
    response into the channel of its token when the token is in the table
    and drops it otherwise, and it performs the raw writes into the
    shared state (login result, condition list, balance, order records,
    streaming entries).  [advance_clock] lets wall-clock time pass. *)
Inductive event_action : Type :=
| put_login_result (v : value)
| put_condition_list (v : value)
| deliver (t : table) (key : string) (v : value)
| write_balance (stock_code : string) (h : Holding)
| write_order_info (order_number : string) (info : gmap string string)
| write_price_info (stock_code : string) (p : PriceInfo)
| write_ask_bid_info (stock_code : string) (a : AskBidInfo)
| advance_clock (us : Z).

(** Modelled from the spec: the deposit of a value into the channel at
    address [l], [heap[l].put(v)]; the event thread's code is not part of
    market.py.  A put on a full queue does not complete and leaves the
    heap as it is. *)
Definition heap_put (l : loc) (v : value) (h : list Queue) : list Queue :=
  match h !! l with
  | Some q =>
      match Queue_put v q with
      | Some q' => <[l := q']> h
      | None => h
      end
  | None => h
  end.

(** Modelled from the spec: the same deposit into one of the two queues
    that are attributes of [MarketData]. *)
Definition queue_put_or_keep (v : value) (q : Queue) : Queue :=
  match Queue_put v q with
  | Some q' => q'
  | None => q
  end.

(** Modelled from the spec: what one action of the event thread does to
    the world (sections 4.1, 4.2 and 6); the callers' trace is not its
    to write. *)
Definition event_step (e : event_action) (w : World) : World :=
  match e with
  | put_login_result v =>
      with_data (with_login_result (queue_put_or_keep v (login_result (data w))) (data w)) w
  | put_condition_list v =>
      with_data (with_condition_list (queue_put_or_keep v (condition_list (data w))) (data w)) w
  | deliver t key v =>
      match table_of t (data w) !! key with
      | Some l => with_heap (heap_put l v (heap w)) w
      | None => w
      end
  | write_balance code h =>
      with_data (with_balance (<[code := h]> (balance (data w))) (data w)) w
  | write_order_info n info =>
      with_data (with_order_number_to_info (<[n := info]> (order_number_to_info (data w))) (data w)) w
  | write_price_info code p =>
      with_data (with_price_info (<[code := p]> (price_info (data w))) (data w)) w
  | write_ask_bid_info code a =>
      with_data (with_ask_bid_info (<[code := a]> (ask_bid_info (data w))) (data w)) w
  | advance_clock us =>
      with_clock (datetime_add_us (clock w) us) w
  end.

(** A batch: what the event thread does during one wait of the caller. *)
Definition event_batch (es : list event_action) (w : World) : World :=
  foldl (fun w e => event_step e w) w es.

(** The script of a run: one batch of event-thread actions for every wait
    of the caller. *)
Definition script : Type := list (list event_action).

(** ** The methods of [Market] *)

Open Scope thread_scope.

(** [initialize], lines 47-51: the login loop, followed by [rest]. *)
Fixpoint initialize_loop {A : Type} (fuel : nat) (rest : Thread A) : Thread A :=
  match fuel with
  | O => OutOfFuel
  | S fuel' =>
      do! Emit login_request_signal in
      let! login_result := GetLoginResult in
      if eq_int login_result 0 then rest
      else initialize_loop fuel' rest
  end.

(** [initialize], lines 52-54: what follows the login loop. *)
Definition initialize_after_login : Thread unit :=
  do! Emit account_number_request_signal in
  let! request_name := CreateRequestName "GetBalance" in
  do! Emit (balance_request_signal request_name) in
  Return tt.

Definition initialize (fuel : nat) : Thread unit :=
  initialize_loop fuel initialize_after_login.

Definition get_condition : Thread value :=
  do! Emit condition_request_signal in
  let! condition_list := GetConditionList in
  Return condition_list.

Definition get_matching_stocks (condition_name : string) (condition_index : Z)
  : Thread value :=
  let! q := NewQueue 1 in
  do! SetItem ConditionNameToResult condition_name q in
  do! Emit (condition_search_request_signal condition_name condition_index) in
  let! slot := GetItem ConditionNameToResult condition_name in
  let! matching_stocks := Get slot in
  do! DelItem ConditionNameToResult condition_name in
  Return matching_stocks.

Definition get_deposit : Thread value :=
  let! request_name := CreateRequestName "GetDeposit" in
  let! q := NewQueue 1 in
  do! SetItem RequestNameToTrData request_name q in
  do! Emit (deposit_request_signal request_name) in
  let! slot := GetItem RequestNameToTrData request_name in
  let! deposit := Get slot in
  do! DelItem RequestNameToTrData request_name in
  Return deposit.

Definition get_balance : Thread (gmap string Holding) :=
  let! balance := ReadBalance in
  Return balance.

Definition request_order (order : order_dict) : Thread value :=
  let! request_name :=
    CreateRequestName ("RequestOrder-" +:+ order_stock_code order) in
  let! q := NewQueue 1 in
  do! SetItem RequestNameToTrData request_name q in
  do! Emit (order_request_signal order request_name) in
  let! slot := GetItem RequestNameToTrData request_name in
  let! order_number := Get slot in
  do! DelItem RequestNameToTrData request_name in
  Return order_number.

Fixpoint get_order_info (fuel : nat) (order_number : string)
  : Thread (gmap string string) :=
  match fuel with
  | O => OutOfFuel
  | S fuel' =>
      try! order_info := OrderInfoItem order_number in
        Return order_info
      except e =>
        match e with
        | KeyError _ => do! Sleep 1 in get_order_info fuel' order_number
        end
  end.

Definition register_price_info (stock_code_list : list string) (is_add : bool)
  : Thread unit :=
  do! Emit (price_register_request_signal stock_code_list is_add) in
  Return tt.

Definition register_ask_bid_info (stock_code_list : list string) (is_add : bool)
  : Thread unit :=
  do! Emit (ask_bid_register_request_signal stock_code_list is_add) in
  Return tt.

(** [get_price_info], lines 256-261: the polling loop, followed by
    [rest] on the entry it found. *)
Fixpoint price_info_loop {A : Type} (fuel : nat) (stock_code : string)
  (rest : PriceInfo -> Thread A) : Thread A :=
  match fuel with
  | O => OutOfFuel
  | S fuel' =>
      try! price_info := PriceInfoItem stock_code in
        rest price_info
      except e =>
        match e with
        | KeyError _ => do! Sleep 1 in price_info_loop fuel' stock_code rest
        end
  end.

Definition price_warning_1 : list fragment :=
  [Lit "!!! 실시간 체결 데이터의 시간이 실제 시간과 큰 차이가 있습니다. !!!"].
Definition ask_bid_warning_1 : list fragment :=
  [Lit "!!! 실시간 호가 데이터의 시간이 실제 시간과 큰 차이가 있습니다. !!!"].
Definition warning_2 : list fragment :=
  [Lit "!!! 주식이 상/하한가이거나 과열될 경우 일어날 수 있습니다. !!!"].
(** [f'!!! {stock_code} - {info_time} vs {cur_time} !!!'] *)
Definition warning_3 (stock_code : string) (info_time cur_time : datetime)
  : list fragment :=
  [Lit "!!! "; FStr stock_code; Lit " - "; FTime info_time; Lit " vs ";
   FTime cur_time; Lit " !!!"].

Definition get_price_info (fuel : nat) (stock_code : string) : Thread PriceInfo :=
  price_info_loop fuel stock_code (fun price_info =>
    let! now := Now in
    let cur_time := replace_1900_01_01 now in
    let info_time := trade_time price_info in
    let time_delta := datetime_sub cur_time info_time in
    if total_seconds_gt time_delta 10 then
      do! Warning price_warning_1 in
      do! Warning warning_2 in
      do! Warning (warning_3 stock_code info_time cur_time) in
      Return price_info
    else Return price_info).

Fixpoint ask_bid_info_loop {A : Type} (fuel : nat) (stock_code : string)
  (rest : AskBidInfo -> Thread A) : Thread A :=
  match fuel with
  | O => OutOfFuel
  | S fuel' =>
      try! ask_bid_info := AskBidInfoItem stock_code in
        rest ask_bid_info
      except e =>
        match e with
        | KeyError _ => do! Sleep 1 in ask_bid_info_loop fuel' stock_code rest
        end
  end.

Definition get_ask_bid_info (fuel : nat) (stock_code : string) : Thread AskBidInfo :=
  ask_bid_info_loop fuel stock_code (fun ask_bid_info =>
    let! now := Now in
    let cur_time := replace_1900_01_01 now in
    let info_time := quote_time ask_bid_info in
    let time_delta := datetime_sub cur_time info_time in
    if total_seconds_gt time_delta 10 then
      do! Warning ask_bid_warning_1 in
      do! Warning warning_2 in
      do! Warning (warning_3 stock_code info_time cur_time) in
      Return ask_bid_info
    else Return ask_bid_info).

(** The blocking read that ends the three tokenized methods: the queue
    object is looked up under its key, read, and its entry deleted. *)
Definition await_slot (t : table) (key : string) : Thread value :=
  let! slot := GetItem t key in
  let! result := Get slot in
  do! DelItem t key in
  Return result.

(** Lines 120-122 of [get_deposit] (and 172-174 of [request_order]) as a
    program of its own. *)
Definition await_tr_data (request_name : string) : Thread value :=
  await_slot RequestNameToTrData request_name.

(** Lines 102-104 of [get_matching_stocks], likewise. *)
Definition await_condition_result (condition_name : string) : Thread value :=
  await_slot ConditionNameToResult condition_name.

Close Scope thread_scope.

(** ** Worlds along a tokenized request *)

(** The world once [t[key] = queue.Queue(maxsize=1)] has run. *)
Definition slot_installed (t : table) (key : string) (w : World) : World :=
  with_data (with_table t (<[key := length (heap w)]> (table_of t (data w))) (data w))
    (with_heap (heap w ++ [Queue_new 1]) w).

(** The world once signal [s] has been emitted. *)
Definition emitted (s : signal) (w : World) : World :=
  with_trace (trace w ++ [Emitted s]) w.

(** The world once [time.sleep(s)] has run. *)
Definition slept (s : Z) (w : World) : World :=
  with_trace (trace w ++ [Slept s])
    (with_clock (datetime_add_us (clock w) (s * us_per_second)) w).

(** The world once [del t[key]] has run. *)
Definition slot_removed (t : table) (key : string) (w : World) : World :=
  with_data (with_table t (delete key (table_of t (data w))) (data w)) w.

(** The dictionary [t] has an entry for [key], and it names an empty
    queue of capacity one. *)
Definition slot_ready (t : table) (key : string) (w : World) : Prop :=
  exists l : loc, table_of t (data w) !! key = Some l /\ heap w !! l = Some (Queue_new 1).

(** The script in which the event thread answers each wait with one login
    result. *)
Definition login_script (results : list value) : script :=
  map (fun r => [put_login_result r]) results.

(** Does the event-thread action write the record of this order? *)
Definition writes_order (order_number : string) (e : event_action) : bool :=
  match e with
  | write_order_info n _ => bool_decide (n = order_number)
  | _ => false
  end.

(** No action of the script writes the record of this order. *)
Definition quiet (order_number : string) (sc : script) : Prop :=
  Forall (Forall (fun e => writes_order order_number e = false)) sc.

(** The log of the staleness check of [get_price_info]. *)
Definition price_staleness_log (stock_code : string) (p : PriceInfo) (now : datetime)
  : list event :=
  if total_seconds_gt (datetime_sub (replace_1900_01_01 now) (trade_time p)) 10 then
    [Warned price_warning_1; Warned warning_2;
     Warned (warning_3 stock_code (trade_time p) (replace_1900_01_01 now))]
  else [].

Definition ask_bid_staleness_log (stock_code : string) (a : AskBidInfo) (now : datetime)
  : list event :=
  if total_seconds_gt (datetime_sub (replace_1900_01_01 now) (quote_time a)) 10 then
    [Warned ask_bid_warning_1; Warned warning_2;
     Warned (warning_3 stock_code (quote_time a) (replace_1900_01_01 now))]
  else [].

(** ** A concrete session *)

(** A naming with a counter: the request type, a dash, the count. *)
Definition counter_request_name (type : string) (n : nat) : string :=
  type +:+ "-" +:+ pretty n.

(** Nothing loaded yet. *)
Definition no_data : MarketData :=
  mkMarketData (Queue_new 0) (Queue_new 0) ∅ ∅ ∅ ∅ ∅ ∅.

(** 09:00:15 on 2024-01-02. *)
Definition nine_and_15_seconds : datetime :=
  mkDatetime 738887 ((9 * 3600 + 15) * us_per_second).

Definition session_start : World :=
  mkWorld no_data [] 1 nine_and_15_seconds [].

(** The deposit request of the session is out and its slot is empty. *)
Definition deposit_pending : World :=
  emitted (deposit_request_signal "GetDeposit-1")
    (slot_installed RequestNameToTrData "GetDeposit-1" (with_issued 2 session_start)).

(** The deposit has been delivered and read. *)
Definition deposit_read : World :=
  slot_removed RequestNameToTrData "GetDeposit-1" deposit_pending.

(** An order record as the event thread writes it. *)
Definition filled_order : gmap string string :=
  <["주문번호" := "0012345"]> (<["주문상태" := "체결"]> ∅).

Definition order_written : World :=
  event_step (write_order_info "0012345" filled_order) session_start.

(** A tick of 005930 at 09:00:00. *)
Definition tick_at_nine : PriceInfo :=
  mkPriceInfo (mkDatetime ordinal_1900_01_01 (9 * 3600 * us_per_second))
    71000 70500 71200 70400.

Definition tick_written : World :=
  event_step (write_price_info "005930" tick_at_nine) session_start.


(** ** Event-thread traffic and the shape of the heap *)

(** The world after the batches [used], one after the other. *)
Definition event_batches (used : script) (w : World) : World :=
  foldl (fun w es => event_batch es w) w used.

#[global] Instance table_eq_dec : EqDecision table.
Proof. solve_decision. Defined.

(** Is the action a delivery into the slot of [key] in dictionary [t]? *)
Definition delivers_to (t : table) (key : string) (e : event_action) : bool :=
  match e with
  | deliver t' key' _ => bool_decide (t' = t) && bool_decide (key' = key)
  | _ => false
  end.

(** Traffic that is not for the slot of [key]: other deliveries, writes
    of streaming data, login results. *)
Definition foreign_batch (t : table) (key : string) (es : list event_action) : Prop :=
  Forall (fun e => delivers_to t key e = false) es.

Definition foreign (t : table) (key : string) (sc : script) : Prop :=
  Forall (foreign_batch t key) sc.

(** Every entry of the two dictionaries names a queue object that
    exists. *)
Definition heap_closed (w : World) : Prop :=
  forall (t : table) (key : string) (l : loc),
    table_of t (data w) !! key = Some l -> (l < length (heap w))%nat.

(** The queue object at [l] is named by the entry of [key] in [t] and by
    no other entry. *)
Definition unaliased (t : table) (key : string) (l : loc) (w : World) : Prop :=
  forall (t' : table) (key' : string),
    table_of t' (data w) !! key' = Some l -> t' = t /\ key' = key.

(** Does the event-thread action write the price entry of this stock? *)
Definition writes_price (stock_code : string) (e : event_action) : bool :=
  match e with
  | write_price_info code _ => bool_decide (code = stock_code)
  | _ => false
  end.

Definition quiet_price (stock_code : string) (sc : script) : Prop :=
  Forall (Forall (fun e => writes_price stock_code e = false)) sc.

(** Does the event-thread action write the quote entry of this stock? *)
Definition writes_ask_bid (stock_code : string) (e : event_action) : bool :=
  match e with
  | write_ask_bid_info code _ => bool_decide (code = stock_code)
  | _ => false
  end.

Definition quiet_ask_bid (stock_code : string) (sc : script) : Prop :=
  Forall (Forall (fun e => writes_ask_bid stock_code e = false)) sc.

(** ** The three tokenized methods, as one family *)

Inductive tokenized : Type :=
| GetDeposit
| RequestOrder (order : order_dict)
| GetMatchingStocks (condition_name : string) (condition_index : Z).

Definition tokenized_thread (m : tokenized) : Thread value :=
  match m with
  | GetDeposit => get_deposit
  | RequestOrder order => request_order order
  | GetMatchingStocks condition_name condition_index =>
      get_matching_stocks condition_name condition_index
  end.

(** The dictionary the method keeps its slot in. *)
Definition tokenized_table (m : tokenized) : table :=
  match m with
  | GetMatchingStocks _ _ => ConditionNameToResult
  | _ => RequestNameToTrData
  end.

(** The key of the slot: the request name that [naming] builds in world
    [w], or the condition name. *)
Definition tokenized_key (naming : string -> nat -> string) (m : tokenized) (w : World)
  : string :=
  match m with
  | GetDeposit => naming "GetDeposit" (issued w)
  | RequestOrder order => naming ("RequestOrder-" +:+ order_stock_code order) (issued w)
  | GetMatchingStocks condition_name _ => condition_name
  end.

(** The one signal the method emits. *)
Definition tokenized_signal (naming : string -> nat -> string) (m : tokenized) (w : World)
  : signal :=
  match m with
  | GetDeposit => deposit_request_signal (tokenized_key naming m w)
  | RequestOrder order => order_request_signal order (tokenized_key naming m w)
  | GetMatchingStocks condition_name condition_index =>
      condition_search_request_signal condition_name condition_index
  end.

(** The world once the method has its key. *)
Definition tokenized_named (m : tokenized) (w : World) : World :=
  match m with
  | GetMatchingStocks _ _ => w
  | _ => with_issued (S (issued w)) w
  end.

(** The number of actions of the method up to and with its [emit]. *)
Definition tokenized_prefix (m : tokenized) : nat :=
  match m with
  | GetMatchingStocks _ _ => 3%nat
  | _ => 4%nat
  end.

(** ** More of the concrete session *)

(** Traffic that has nothing to do with the first deposit request. *)
Definition other_traffic : script :=
  [[deliver RequestNameToTrData "GetDeposit-9" (VInt 1); put_login_result (VInt 0)];
   [write_order_info "0012345" filled_order]].

(** A tick of 005930 at 09:00:00 whose event time carries the date of the
    session, 2024-01-02. *)
Definition dated_tick : PriceInfo :=
  mkPriceInfo (mkDatetime 738887 (9 * 3600 * us_per_second)) 71000 70500 71200 70400.

Definition dated_tick_written : World :=
  event_step (write_price_info "005930" dated_tick) session_start.

(** The ten levels are cut to one here. *)
Definition quote_at_nine : AskBidInfo :=
  mkAskBidInfo (mkDatetime ordinal_1900_01_01 (9 * 3600 * us_per_second))
    [(70900, 120)] [(71000, 80)].

Definition quote_written : World :=
  event_step (write_ask_bid_info "005930" quote_at_nine) session_start.

Definition samsung_holding : Holding :=
  mkHolding "005930" "삼성전자" 10 10 70000.

(** Traffic that writes no order record. *)
Definition quiet_traffic : script :=
  [[put_login_result (VInt 0)]; [write_price_info "005930" tick_at_nine]].

(** The record of the same order after a change of its status. *)
Definition cancelled_order : gmap string string :=
  <["주문번호" := "0012345"]> (<["주문상태" := "취소"]> ∅).



(** Closes a goal [Forall P l] on a list given in full, each [P x] by
    computation. *)
Ltac forall_by_computation :=
  repeat first
    [ apply Forall_nil_2
    | apply Forall_cons_2; [first [vm_compute; reflexivity | idtac] |] ].

(** Line 102 of [get_matching_stocks] (120 of [get_deposit], 172 of
    [request_order]) once its subscript has run: the thread holds the
    queue object at [l]; it reads it, deletes the entry of its key and
    returns what it read. *)
Definition await_queue (t : table) (key : string) (l : loc) : Thread value :=
  (let! result := Get l in
   do! DelItem t key in
   Return result)%thread.


Section Market.

(** [KiwoomAPIUtils.create_request_name] is outside market.py: the name
    it builds from the request type and its disambiguator, here the
    number of names issued before. *)
Variable request_name_of : string -> nat -> string.

(** ** The meaning of an action *)

Definition exec_dict_item {V : Type} (m : gmap string V) (key : string) (w : World)
  : exec_result V :=
  match m !! key with
  | Some v => Done v w
  | None => Throw (KeyError key)
  end.

Definition exec {B : Type} (a : action B) (w : World) : exec_result B :=
  match a in action B return exec_result B with
  | CreateRequestName type =>
      Done (request_name_of type (issued w)) (with_issued (S (issued w)) w)
  | NewQueue n =>
      Done (length (heap w)) (with_heap (heap w ++ [Queue_new n]) w)
  | SetItem t key q =>
      Done tt (with_data (with_table t (<[key := q]> (table_of t (data w))) (data w)) w)
  | GetItem t key =>
      exec_dict_item (table_of t (data w)) key w
  | DelItem t key =>
      match table_of t (data w) !! key with
      | Some _ => Done tt (with_data (with_table t (delete key (table_of t (data w))) (data w)) w)
      | None => Throw (KeyError key)
      end
  | Get l =>
      match heap w !! l with
      | Some q =>
          match Queue_get q with
          | Some (v, q') => Done v (with_heap (<[l := q']> (heap w)) w)
          | None => Wait
          end
      | None => Wait
      end
  | GetLoginResult =>
      match Queue_get (login_result (data w)) with
      | Some (v, q') => Done v (with_data (with_login_result q' (data w)) w)
      | None => Wait
      end
  | GetConditionList =>
      match Queue_get (condition_list (data w)) with
      | Some (v, q') => Done v (with_data (with_condition_list q' (data w)) w)
      | None => Wait
      end
  | Emit s =>
      Done tt (with_trace (trace w ++ [Emitted s]) w)
  | ReadBalance =>
      Done (balance (data w)) w
  | OrderInfoItem n =>
      exec_dict_item (order_number_to_info (data w)) n w
  | PriceInfoItem code =>
      exec_dict_item (price_info (data w)) code w
  | AskBidInfoItem code =>
      exec_dict_item (ask_bid_info (data w)) code w
  | Sleep s =>
      Done tt (with_trace (trace w ++ [Slept s])
                 (with_clock (datetime_add_us (clock w) (s * us_per_second)) w))
  | Now =>
      Done (clock w) w
  | Warning m =>
      Done tt (with_trace (trace w ++ [Warned m]) w)
  end.

(** [time.sleep] is the other place where a caller waits. *)
Definition is_sleep {B : Type} (a : action B) : bool :=
  match a with
  | Sleep _ => true
  | _ => false
  end.

(** ** Running threads *)

(** One atomic step of a thread; [None] when the thread has finished or
    cannot move. *)
Definition step {A : Type} (t : Thread A) (w : World) : option (World * Thread A) :=
  match t with
  | Act a k h =>
      match exec a w with
      | Done b w' => Some (w', k b)
      | Throw e => Some (w, h e)
      | Wait => None
      end
  | _ => None
  end.

Fixpoint steps {A : Type} (n : nat) (t : Thread A) (w : World) : option (World * Thread A) :=
  match n with
  | O => Some (w, t)
  | S n' =>
      match step t w with
      | Some (w', t') => steps n' t' w'
      | None => None
      end
  end.

(** Runs a thread to its end against a script.  Whenever the thread waits
    (its [get] finds the queue empty, or it sleeps) the event thread
    performs the next batch of the script.  A thread that waits on an
    empty queue when the script is over stays where it is: nobody will
    ever wake it.  The result is the final world, the unused rest of the
    script, and what is left of the thread. *)
Fixpoint run {A : Type} (t : Thread A) (sc : script) (w : World) {struct t}
  : World * script * Thread A :=
  match t with
  | Act a k h =>
      (fix attempt (sc : script) (w : World) {struct sc} : World * script * Thread A :=
         match exec a w with
         | Done b w' =>
             if is_sleep a then
               match sc with
               | [] => run (k b) [] w'
               | es :: sc' => run (k b) sc' (event_batch es w')
               end
             else run (k b) sc w'
         | Throw e => run (h e) sc w
         | Wait =>
             match sc with
             | [] => (w, [], t)
             | es :: sc' => attempt sc' (event_batch es w)
             end
         end) sc w
  | _ => (w, sc, t)
  end.

(** ** How [run] unfolds *)

Lemma run_done {A B : Type} (a : action B) (k : B -> Thread A) (h : exn -> Thread A)
    (sc : script) (w : World) (b : B) (w' : World) :
  is_sleep a = false -> exec a w = Done b w' ->
  run (Act a k h) sc w = run (k b) sc w'.
Proof.
  intros Hs He. destruct sc; simpl; rewrite He, Hs; reflexivity.
Qed.

Lemma run_throw {A B : Type} (a : action B) (k : B -> Thread A) (h : exn -> Thread A)
    (sc : script) (w : World) (e : exn) :
  exec a w = Throw e ->
  run (Act a k h) sc w = run (h e) sc w.
Proof.
  intros He. destruct sc; simpl; rewrite He; reflexivity.
Qed.

Lemma run_wait_nil {A B : Type} (a : action B) (k : B -> Thread A) (h : exn -> Thread A)
    (w : World) :
  exec a w = Wait ->
  run (Act a k h) [] w = (w, [], Act a k h).
Proof.
  intros He. simpl. rewrite He. reflexivity.
Qed.

Lemma run_wait_cons {A B : Type} (a : action B) (k : B -> Thread A) (h : exn -> Thread A)
    (es : list event_action) (sc : script) (w : World) :
  exec a w = Wait ->
  run (Act a k h) (es :: sc) w = run (Act a k h) sc (event_batch es w).
Proof.
  intros He. simpl. rewrite He. destruct sc; reflexivity.
Qed.

Lemma run_sleep_nil {A : Type} (s : Z) (k : unit -> Thread A) (h : exn -> Thread A)
    (w : World) :
  run (Act (Sleep s) k h) [] w = run (k tt) [] (slept s w).
Proof. reflexivity. Qed.

Lemma run_sleep_cons {A : Type} (s : Z) (k : unit -> Thread A) (h : exn -> Thread A)
    (es : list event_action) (sc : script) (w : World) :
  run (Act (Sleep s) k h) (es :: sc) w = run (k tt) sc (event_batch es (slept s w)).
Proof. reflexivity. Qed.

(** A thread about to perform an action that is not a sleep: the run
    goes on with the value of the action, or with its exception, or the
    thread is left waiting. *)
Lemma run_act_cases {A B : Type} (a : action B) (k : B -> Thread A) (h : exn -> Thread A)
    (sc : script) (w : World) :
  is_sleep a = false ->
  (exists b w1 w2 sc1, exec a w1 = Done b w2 /\ run (Act a k h) sc w = run (k b) sc1 w2) \/
  (exists e w1 sc1, exec a w1 = Throw e /\ run (Act a k h) sc w = run (h e) sc1 w1) \/
  (exists w1, run (Act a k h) sc w = (w1, [], Act a k h)).
Proof.
  intros Hs. revert w. induction sc as [|es sc IH]; intros w.
  - destruct (exec a w) as [b w2|e|] eqn:He.
    + left. exists b, w, w2, []. split; [exact He|]. by apply run_done.
    + right; left. exists e, w, []. split; [exact He|]. by apply run_throw.
    + right; right. exists w. by apply run_wait_nil.
  - destruct (exec a w) as [b w2|e|] eqn:He.
    + left. exists b, w, w2, (es :: sc). split; [exact He|]. by apply run_done.
    + right; left. exists e, w, (es :: sc). split; [exact He|]. by apply run_throw.
    + rewrite (run_wait_cons _ _ _ _ _ _ He). apply IH.
Qed.

(** ** Heap and dictionary facts *)

Lemma heap_new_lookup (h : list Queue) (q : Queue) :
  (h ++ [q]) !! length h = Some q.
Proof. by apply list_lookup_middle. Qed.

Lemma heap_new_insert (h : list Queue) (q q' : Queue) :
  <[length h := q']> (h ++ [q]) = h ++ [q'].
Proof. rewrite insert_app_r_alt by lia. by rewrite Nat.sub_diag. Qed.

Lemma table_of_with_table (t : table) (m : gmap string loc) (d : MarketData) :
  table_of t (with_table t m d) = m.
Proof. by destruct t. Qed.

Lemma slot_installed_ready (t : table) (key : string) (w : World) :
  slot_ready t key (slot_installed t key w).
Proof.
  exists (length (heap w)). unfold slot_installed. cbn [data heap with_data with_heap].
  rewrite table_of_with_table, lookup_insert_eq, heap_new_lookup. done.
Qed.

Lemma slot_removed_absent (t : table) (key : string) (w : World) :
  table_of t (data (slot_removed t key w)) !! key = None.
Proof.
  unfold slot_removed. cbn [data with_data].
  by rewrite table_of_with_table, lookup_delete_eq.
Qed.

(** ** The blocking read *)

(** The read of a ready slot, answered by one delivery: the delivered
    value comes back and the entry is gone. *)
Lemma await_slot_delivered (t : table) (key : string) (v : value) (w : World) :
  slot_ready t key w ->
  run (await_slot t key) [[deliver t key v]] w = (slot_removed t key w, [], Return v).
Proof.
  intros (l & Hl & Hq). unfold await_slot.
  erewrite run_done; [|reflexivity|].
  2:{ cbn [exec]. unfold exec_dict_item. by rewrite Hl. }
  rewrite run_wait_cons.
  2:{ cbn [exec]. by rewrite Hq. }
  assert (Hput : event_batch [deliver t key v] w =
                 with_heap (<[l := mkQueue 1 [v]]> (heap w)) w).
  { cbn [event_batch foldl event_step]. rewrite Hl. unfold heap_put. by rewrite Hq. }
  rewrite Hput.
  assert (Hlt : (l < length (heap w))%nat) by (by eapply lookup_lt_Some).
  erewrite run_done; [|reflexivity|].
  2:{ cbn [exec heap with_heap]. rewrite list_lookup_insert_eq by exact Hlt.
      cbn [Queue_get items maxsize]. reflexivity. }
  erewrite run_done; [|reflexivity|].
  2:{ cbn [exec data with_heap]. rewrite Hl. reflexivity. }
  cbn [run]. f_equal. f_equal.
  unfold slot_removed. cbn [data heap issued clock trace with_data with_heap].
  rewrite list_insert_insert_eq.
  rewrite (list_insert_id (heap w) l (mkQueue 1 [])) by exact Hq.
  by destruct w.
Qed.

(** A read that completes, whatever the event thread did meanwhile,
    leaves no entry for its key. *)
Lemma await_slot_returned (t : table) (key : string) (sc sc' : script)
    (w w' : World) (v : value) :
  run (await_slot t key) sc w = (w', sc', Return v) ->
  table_of t (data w') !! key = None.
Proof.
  unfold await_slot. intros Hrun.
  destruct (run_act_cases (GetItem t key)
              (fun slot => Act (Get slot)
                 (fun result => Act (DelItem t key) (fun _ => Return result) Raise) Raise)
              Raise sc w eq_refl)
    as [(l & w1 & w2 & sc1 & He & Hr)|[(e & w1 & sc1 & He & Hr)|(w1 & Hr)]];
    rewrite Hr in Hrun; [|discriminate Hrun|discriminate Hrun].
  clear Hr He.
  destruct (run_act_cases (Get l)
              (fun result => Act (DelItem t key) (fun _ => Return result) Raise)
              Raise sc1 w2 eq_refl)
    as [(r & w3 & w4 & sc2 & He & Hr)|[(e & w3 & sc2 & He & Hr)|(w3 & Hr)]];
    rewrite Hr in Hrun; [|discriminate Hrun|discriminate Hrun].
  clear Hr He.
  destruct (run_act_cases (DelItem t key) (fun _ => Return r) Raise sc2 w4 eq_refl)
    as [(u & w5 & w6 & sc3 & He & Hr)|[(e & w5 & sc3 & He & Hr)|(w5 & Hr)]];
    rewrite Hr in Hrun; [|discriminate Hrun|discriminate Hrun].
  cbn [run] in Hrun. injection Hrun as <- _ _.
  cbn [exec] in He. destruct (table_of t (data w5) !! key); [|discriminate He].
  injection He as _ <-. apply slot_removed_absent.
Qed.

(** A read of a key that has no entry raises [KeyError] at once. *)
Lemma await_slot_absent (t : table) (key : string) (sc : script) (w : World) :
  table_of t (data w) !! key = None ->
  run (await_slot t key) sc w = (w, sc, Raise (KeyError key)).
Proof.
  intros Hnone. unfold await_slot.
  erewrite run_throw; [reflexivity|].
  cbn [exec]. unfold exec_dict_item. by rewrite Hnone.
Qed.

(** ** The three tokenized methods up to their blocking read *)

Lemma get_deposit_steps (w : World) :
  let name := request_name_of "GetDeposit" (issued w) in
  let w3 := slot_installed RequestNameToTrData name (with_issued (S (issued w)) w) in
  steps 3 get_deposit w =
    Some (w3, Act (Emit (deposit_request_signal name))
                (fun _ => await_tr_data name) Raise) /\
  steps 4 get_deposit w =
    Some (emitted (deposit_request_signal name) w3, await_tr_data name).
Proof. split; reflexivity. Qed.

Lemma request_order_steps (order : order_dict) (w : World) :
  let name := request_name_of ("RequestOrder-" +:+ order_stock_code order) (issued w) in
  let w3 := slot_installed RequestNameToTrData name (with_issued (S (issued w)) w) in
  steps 3 (request_order order) w =
    Some (w3, Act (Emit (order_request_signal order name))
                (fun _ => await_tr_data name) Raise) /\
  steps 4 (request_order order) w =
    Some (emitted (order_request_signal order name) w3, await_tr_data name).
Proof. split; reflexivity. Qed.

Lemma get_matching_stocks_steps (name : string) (index : Z) (w : World) :
  let w2 := slot_installed ConditionNameToResult name w in
  steps 2 (get_matching_stocks name index) w =
    Some (w2, Act (Emit (condition_search_request_signal name index))
                (fun _ => await_condition_result name) Raise) /\
  steps 3 (get_matching_stocks name index) w =
    Some (emitted (condition_search_request_signal name index) w2,
          await_condition_result name).
Proof. split; reflexivity. Qed.

Lemma get_deposit_run (sc : script) (w : World) :
  let name := request_name_of "GetDeposit" (issued w) in
  run get_deposit sc w =
  run (await_tr_data name) sc
    (emitted (deposit_request_signal name)
       (slot_installed RequestNameToTrData name (with_issued (S (issued w)) w))).
Proof.
  intros name. unfold get_deposit.
  do 4 (erewrite run_done by reflexivity). reflexivity.
Qed.

Lemma request_order_run (order : order_dict) (sc : script) (w : World) :
  let name := request_name_of ("RequestOrder-" +:+ order_stock_code order) (issued w) in
  run (request_order order) sc w =
  run (await_tr_data name) sc
    (emitted (order_request_signal order name)
       (slot_installed RequestNameToTrData name (with_issued (S (issued w)) w))).
Proof.
  intros name. unfold request_order.
  do 4 (erewrite run_done by reflexivity). reflexivity.
Qed.

Lemma get_matching_stocks_run (name : string) (index : Z) (sc : script) (w : World) :
  run (get_matching_stocks name index) sc w =
  run (await_condition_result name) sc
    (emitted (condition_search_request_signal name index)
       (slot_installed ConditionNameToResult name w)).
Proof.
  unfold get_matching_stocks.
  do 3 (erewrite run_done by reflexivity). reflexivity.
Qed.

Lemma emitted_slot_ready (t : table) (key : string) (s : signal) (w : World) :
  slot_ready t key w -> slot_ready t key (emitted s w).
Proof. intros H. exact H. Qed.

(** The read of a slot whose queue already holds a value returns it
    without waiting. *)
Lemma await_slot_filled (t : table) (key : string) (l : loc) (v : value)
    (sc : script) (w : World) :
  table_of t (data w) !! key = Some l ->
  heap w !! l = Some (mkQueue 1 [v]) ->
  run (await_slot t key) sc w =
    (slot_removed t key (with_heap (<[l := Queue_new 1]> (heap w)) w), sc, Return v).
Proof.
  intros Hl Hq. unfold await_slot.
  erewrite run_done; [|reflexivity|].
  2:{ cbn [exec]. unfold exec_dict_item. by rewrite Hl. }
  erewrite run_done; [|reflexivity|].
  2:{ cbn [exec]. rewrite Hq. cbn [Queue_get items maxsize]. reflexivity. }
  erewrite run_done; [|reflexivity|].
  2:{ cbn [exec data with_heap]. rewrite Hl. reflexivity. }
  reflexivity.
Qed.

(** The read of a ready slot that nobody fills waits on its queue. *)
Lemma await_slot_blocks (t : table) (key : string) (l : loc) (w : World) :
  table_of t (data w) !! key = Some l ->
  heap w !! l = Some (Queue_new 1) ->
  exists rest : Thread value,
    run (await_slot t key) [] w = (w, [], rest) /\ status_of rest = Before (Get l).
Proof.
  intros Hl Hq. unfold await_slot.
  erewrite run_done; [|reflexivity|].
  2:{ cbn [exec]. unfold exec_dict_item. by rewrite Hl. }
  rewrite run_wait_nil.
  2:{ cbn [exec]. by rewrite Hq. }
  eexists. split; reflexivity.
Qed.

(** ** Tokenized requests (C1, C2, C7, C9) *)

(** C1.  [get_deposit] issues its token with an empty single-slot queue
    and emits the request; when the event thread then deposits [v] for
    that token, whether the caller is already blocked on the slot or has
    yet to read it, [get_deposit] returns exactly [v], and the table has
    no entry for the token afterwards.  The same run of [request_order]
    and of [get_matching_stocks] returns the delivered value and leaves
    no entry either. *)
Theorem tokenized_request_returns_delivered (order : order_dict)
    (condition_name : string) (condition_index : Z) (w : World) (v : value) :
  let name := request_name_of "GetDeposit" (issued w) in
  let order_name :=
    request_name_of ("RequestOrder-" +:+ order_stock_code order) (issued w) in
  (exists w1 w' w'' : World,
     steps 4 get_deposit w = Some (w1, await_tr_data name) /\
     slot_ready RequestNameToTrData name w1 /\
     run get_deposit [[deliver RequestNameToTrData name v]] w = (w', [], Return v) /\
     run (await_tr_data name) [] (event_step (deliver RequestNameToTrData name v) w1)
       = (w'', [], Return v) /\
     request_name_to_tr_data (data w') !! name = None /\
     request_name_to_tr_data (data w'') !! name = None /\
     trace w' = trace w ++ [Emitted (deposit_request_signal name)]) /\
  (exists w' : World,
     run (request_order order) [[deliver RequestNameToTrData order_name v]] w
       = (w', [], Return v) /\
     request_name_to_tr_data (data w') !! order_name = None) /\
  (exists w' : World,
     run (get_matching_stocks condition_name condition_index)
         [[deliver ConditionNameToResult condition_name v]] w
       = (w', [], Return v) /\
     condition_name_to_result (data w') !! condition_name = None).
Proof.
  intros name order_name. split; [|split].
  - pose proof (get_deposit_steps w) as [_ Hsteps].
    pose proof (slot_installed_ready RequestNameToTrData name
                  (with_issued (S (issued w)) w)) as Hready.
    set (w1 := emitted (deposit_request_signal name)
                 (slot_installed RequestNameToTrData name (with_issued (S (issued w)) w))).
    assert (Hready1 : slot_ready RequestNameToTrData name w1) by exact Hready.
    destruct Hready1 as (l & Hl & Hq).
    exists w1, (slot_removed RequestNameToTrData name w1).
    eexists. split; [exact Hsteps|]. split; [exact Hready|].
    split.
    { rewrite get_deposit_run. fold name. fold w1. unfold await_tr_data.
      apply await_slot_delivered. exact Hready. }
    split.
    { unfold await_tr_data. apply await_slot_filled with (l := l).
      - cbn [event_step]. rewrite Hl. exact Hl.
      - cbn [event_step]. rewrite Hl. cbn [heap with_heap]. unfold heap_put. rewrite Hq.
        cbn [Queue_put Queue_full Queue_new maxsize items length].
        cbn. apply list_lookup_insert_eq. by eapply lookup_lt_Some. }
    split; [apply (slot_removed_absent RequestNameToTrData)|].
    split; [apply (slot_removed_absent RequestNameToTrData)|].
    reflexivity.
  - eexists. split.
    + rewrite request_order_run. unfold await_tr_data.
      apply await_slot_delivered. apply slot_installed_ready.
    + apply (slot_removed_absent RequestNameToTrData).
  - eexists. split.
    + rewrite get_matching_stocks_run. unfold await_condition_result.
      apply await_slot_delivered. apply slot_installed_ready.
    + apply (slot_removed_absent ConditionNameToResult).
Qed.

(** C2.  Once an await on a token has completed, its entry is gone, and a
    second await on the same token fails: the subscript raises [KeyError]
    (the spec's InvalidToken), before any wait. *)
Theorem second_await_raises (name : string) (sc sc' sc2 : script)
    (w w' : World) (v : value) :
  run (await_tr_data name) sc w = (w', sc', Return v) ->
  run (await_tr_data name) sc2 w' = (w', sc2, Raise (KeyError name)).
Proof.
  intros Hfirst. unfold await_tr_data in *.
  apply await_slot_absent. by eapply await_slot_returned.
Qed.

(** C7.  [request_order] looks at no field of the order but the stock
    code it puts in the request name: for every order, a market order
    with a price and a limit order without one included, it installs the
    slot, emits the order request with the order as it is, waits on the
    slot, and returns the identifier the event thread delivers. *)
Theorem request_order_no_validation (order : order_dict) (v : value) (w : World) :
  let name := request_name_of ("RequestOrder-" +:+ order_stock_code order) (issued w) in
  exists (w1 w' : World) (rest : Thread value) (l : loc),
    run (request_order order) [] w = (w1, [], rest) /\
    status_of rest = Before (Get l) /\
    request_name_to_tr_data (data w1) !! name = Some l /\
    trace w1 = trace w ++ [Emitted (order_request_signal order name)] /\
    run (request_order order) [[deliver RequestNameToTrData name v]] w = (w', [], Return v) /\
    trace w' = trace w ++ [Emitted (order_request_signal order name)] /\
    request_name_to_tr_data (data w') !! name = None.
Proof.
  intros name.
  pose proof (slot_installed_ready RequestNameToTrData name
                (with_issued (S (issued w)) w)) as Hready.
  set (w1 := emitted (order_request_signal order name)
               (slot_installed RequestNameToTrData name (with_issued (S (issued w)) w))).
  assert (Hready1 : slot_ready RequestNameToTrData name w1) by exact Hready.
  destruct Hready1 as (l & Hl & Hq).
  destruct (await_slot_blocks RequestNameToTrData name l w1 Hl Hq) as (rest & Hrun & Hst).
  exists w1, (slot_removed RequestNameToTrData name w1), rest, l.
  split. { rewrite request_order_run. exact Hrun. }
  split; [exact Hst|]. split; [exact Hl|]. split; [reflexivity|].
  split.
  { rewrite request_order_run. fold name. fold w1. unfold await_tr_data.
    apply await_slot_delivered. exact Hready. }
  split; [reflexivity|].
  apply (slot_removed_absent RequestNameToTrData).
Qed.

(** C9.  In [get_deposit], [request_order] and [get_matching_stocks] the
    empty queue of capacity one is in the table under the token before
    the request signal is emitted: when the thread stands before its
    [emit], it has emitted nothing yet and the slot is ready. *)
Theorem slot_ready_before_emit (order : order_dict) (condition_name : string)
    (condition_index : Z) (w : World) :
  let deposit_name := request_name_of "GetDeposit" (issued w) in
  let order_name :=
    request_name_of ("RequestOrder-" +:+ order_stock_code order) (issued w) in
  (exists w1 t1,
     steps 3 get_deposit w = Some (w1, t1) /\
     status_of t1 = Before (Emit (deposit_request_signal deposit_name)) /\
     trace w1 = trace w /\
     slot_ready RequestNameToTrData deposit_name w1) /\
  (exists w1 t1,
     steps 3 (request_order order) w = Some (w1, t1) /\
     status_of t1 = Before (Emit (order_request_signal order order_name)) /\
     trace w1 = trace w /\
     slot_ready RequestNameToTrData order_name w1) /\
  (exists w1 t1,
     steps 2 (get_matching_stocks condition_name condition_index) w = Some (w1, t1) /\
     status_of t1 =
       Before (Emit (condition_search_request_signal condition_name condition_index)) /\
     trace w1 = trace w /\
     slot_ready ConditionNameToResult condition_name w1).
Proof.
  intros deposit_name order_name. repeat split.
  - destruct (get_deposit_steps w) as [H3 _]. eexists _, _.
    split; [exact H3|]. split; [reflexivity|]. split; [reflexivity|].
    apply slot_installed_ready.
  - destruct (request_order_steps order w) as [H3 _]. eexists _, _.
    split; [exact H3|]. split; [reflexivity|]. split; [reflexivity|].
    apply slot_installed_ready.
  - destruct (get_matching_stocks_steps condition_name condition_index w) as [H2 _].
    eexists _, _.
    split; [exact H2|]. split; [reflexivity|]. split; [reflexivity|].
    apply slot_installed_ready.
Qed.

(** ** The login loop (C4, C8) *)

Lemma with_data_id (w : World) : with_data (data w) w = w.
Proof. by destruct w. Qed.

Lemma with_trace_nil (w : World) : with_trace (trace w ++ []) w = w.
Proof. destruct w. unfold with_trace. cbn. by rewrite app_nil_r. Qed.

Lemma Queue_put_empty (v : value) (q : Queue) :
  items q = [] -> Queue_put v q = Some (mkQueue (maxsize q) [v]).
Proof.
  intros Hq. unfold Queue_put, Queue_full. rewrite Hq. cbn.
  destruct (maxsize q); reflexivity.
Qed.

(** The event thread puts one login result in the empty queue and the
    caller takes it out: the shared data is as before. *)
Lemma login_result_round_trip (v : value) (w : World) :
  items (login_result (data w)) = [] ->
  exec GetLoginResult (event_batch [put_login_result v] w) = Done v w.
Proof.
  intros Hq. cbn [event_batch foldl event_step exec].
  unfold queue_put_or_keep. rewrite (Queue_put_empty v _ Hq). cbn.
  destruct w as [d hp n c tr]. destruct d as [[m its] cl cr tr' bal ord pr ab].
  cbn in Hq. subst its. reflexivity.
Qed.

(** One turn of the loop whose login result is not zero. *)
Lemma initialize_loop_retry {A : Type} (fuel : nat) (rest : Thread A) (r : value)
    (sc : script) (w : World) :
  items (login_result (data w)) = [] ->
  eq_int r 0 = false ->
  run (initialize_loop (S fuel) rest) ([put_login_result r] :: sc) w =
  run (initialize_loop fuel rest) sc (emitted login_request_signal w).
Proof.
  intros Hq Hr. cbn [initialize_loop].
  erewrite run_done by reflexivity.
  rewrite run_wait_cons.
  2:{ cbn [exec]. unfold Queue_get. cbn. by rewrite Hq. }
  erewrite run_done; [|reflexivity|].
  2:{ apply (login_result_round_trip r (emitted login_request_signal w)). exact Hq. }
  cbn beta. by rewrite Hr.
Qed.

(** The turn of the loop whose login result is zero. *)
Lemma initialize_loop_break {A : Type} (fuel : nat) (rest : Thread A)
    (sc : script) (w : World) :
  items (login_result (data w)) = [] ->
  run (initialize_loop (S fuel) rest) ([put_login_result (VInt 0)] :: sc) w =
  run rest sc (emitted login_request_signal w).
Proof.
  intros Hq. cbn [initialize_loop].
  erewrite run_done by reflexivity.
  rewrite run_wait_cons.
  2:{ cbn [exec]. unfold Queue_get. cbn. by rewrite Hq. }
  erewrite run_done; [|reflexivity|].
  2:{ apply (login_result_round_trip (VInt 0) (emitted login_request_signal w)). exact Hq. }
  reflexivity.
Qed.

(** The loop with no login result to come: the request is out and the
    thread waits for its result. *)
Lemma initialize_loop_waits {A : Type} (fuel : nat) (rest : Thread A) (w : World) :
  items (login_result (data w)) = [] ->
  exists t : Thread A,
    run (initialize_loop (S fuel) rest) [] w = (emitted login_request_signal w, [], t) /\
    status_of t = Before GetLoginResult.
Proof.
  intros Hq. cbn [initialize_loop].
  erewrite run_done by reflexivity.
  rewrite run_wait_nil.
  2:{ cbn [exec]. unfold Queue_get. cbn. by rewrite Hq. }
  eexists. split; reflexivity.
Qed.

(** The trace after [n] more login requests. *)
Lemma emitted_logins_trace (n : nat) (w : World) :
  emitted login_request_signal
    (with_trace (trace w ++ replicate n (Emitted login_request_signal)) w) =
  with_trace (trace w ++ replicate (S n) (Emitted login_request_signal)) w.
Proof.
  unfold emitted, with_trace. cbn [data heap issued clock trace]. f_equal.
  by rewrite replicate_S_end, app_assoc.
Qed.

(** Failed logins: each costs one turn of the loop and one request. *)
Lemma initialize_loop_failures {A : Type} (rs : list value) (fuel : nat)
    (rest : Thread A) (sc : script) (w : World) :
  items (login_result (data w)) = [] ->
  Forall (fun r => eq_int r 0 = false) rs ->
  run (initialize_loop (length rs + fuel) rest) (login_script rs ++ sc) w =
  run (initialize_loop fuel rest) sc
    (with_trace (trace w ++ replicate (length rs) (Emitted login_request_signal)) w).
Proof.
  intros Hq Hrs. revert w Hq.
  induction Hrs as [|r rs Hr Hrs IH]; intros w Hq.
  - cbn. by rewrite with_trace_nil.
  - cbn [length login_script map app Nat.add].
    rewrite initialize_loop_retry by assumption.
    fold (login_script rs). rewrite IH by exact Hq.
    f_equal. cbn [trace emitted with_trace].
    pose proof (emitted_logins_trace 0 w) as H0. cbn [replicate] in H0.
    rewrite with_trace_nil in H0.
    unfold emitted, with_trace in *. cbn in *. f_equal.
    rewrite <- app_assoc. reflexivity.
Qed.

Lemma initialize_after_login_steps (w : World) :
  steps 3 initialize_after_login w =
    Some (emitted (balance_request_signal (request_name_of "GetBalance" (issued w)))
            (with_issued (S (issued w)) (emitted account_number_request_signal w)),
          Return tt).
Proof. reflexivity. Qed.

Lemma initialize_after_login_run (sc : script) (w : World) :
  run initialize_after_login sc w =
    (emitted (balance_request_signal (request_name_of "GetBalance" (issued w)))
       (with_issued (S (issued w)) (emitted account_number_request_signal w)),
     sc, Return tt).
Proof.
  unfold initialize_after_login.
  do 3 (erewrite run_done by reflexivity). reflexivity.
Qed.

(** C4.  [initialize] emits the login request and waits for its result,
    again and again while the result is not zero; a failed login is never
    raised or returned.  When the results are the failures [rs] followed
    by a zero, it has emitted one login request per result, then the
    account-number request and the balance request, once each, and
    returns.  When the results are the failures [rs] alone, it has
    emitted one login request more than it has results and waits for the
    next result, with neither of the other requests made. *)
Theorem initialize_retries_until_zero (rs : list value) (fuel : nat) (w : World) :
  items (login_result (data w)) = [] ->
  Forall (fun r => eq_int r 0 = false) rs ->
  (length rs < fuel)%nat ->
  let name := request_name_of "GetBalance" (issued w) in
  (exists w' : World,
     run (initialize fuel) (login_script (rs ++ [VInt 0])) w = (w', [], Return tt) /\
     trace w' = trace w ++ replicate (S (length rs)) (Emitted login_request_signal)
                  ++ [Emitted account_number_request_signal;
                      Emitted (balance_request_signal name)]) /\
  (exists (w' : World) (t : Thread unit),
     run (initialize fuel) (login_script rs) w = (w', [], t) /\
     status_of t = Before GetLoginResult /\
     trace w' = trace w ++ replicate (S (length rs)) (Emitted login_request_signal)).
Proof.
  intros Hq Hrs Hfuel name.
  destruct (Nat.le_exists_sub (S (length rs)) fuel Hfuel) as (extra & -> & _).
  replace (extra + S (length rs))%nat with (length rs + S extra)%nat by lia.
  unfold initialize. split.
  - unfold login_script. rewrite map_app. fold (login_script rs).
    rewrite initialize_loop_failures by assumption.
    cbn [map]. rewrite initialize_loop_break by exact Hq.
    rewrite emitted_logins_trace, initialize_after_login_run.
    eexists. split; [reflexivity|].
    cbn [trace emitted with_trace with_issued issued].
    rewrite <- !app_assoc. reflexivity.
  - rewrite <- (app_nil_r (login_script rs)).
    rewrite initialize_loop_failures by assumption.
    destruct (initialize_loop_waits extra initialize_after_login
                (with_trace (trace w ++ replicate (length rs) (Emitted login_request_signal)) w)
                Hq) as (t & Hrun & Hst).
    rewrite Hrun, emitted_logins_trace.
    eexists _, t. split; [reflexivity|]. split; [exact Hst|reflexivity].
Qed.

(** C8.  After the zero login result [initialize] performs three actions
    and returns: it emits the account-number request, builds the request
    name and emits the balance request.  None of them can wait, no queue
    is created and no dictionary is written: the shared data and the heap
    are what they were, so a balance that was not loaded before is not
    loaded when [initialize] returns. *)
Theorem initialize_does_not_await_responses (fuel : nat) (w : World) :
  items (login_result (data w)) = [] ->
  let name := request_name_of "GetBalance" (issued w) in
  exists w1 w' : World,
    steps 3 initialize_after_login w1 = Some (w', Return tt) /\
    run (initialize (S fuel)) [[put_login_result (VInt 0)]] w = (w', [], Return tt) /\
    trace w1 = trace w ++ [Emitted login_request_signal] /\
    trace w' = trace w1 ++ [Emitted account_number_request_signal;
                            Emitted (balance_request_signal name)] /\
    data w' = data w /\
    heap w' = heap w /\
    balance (data w') = balance (data w).
Proof.
  intros Hq name.
  exists (emitted login_request_signal w). eexists.
  split; [apply initialize_after_login_steps|].
  split.
  { unfold initialize. rewrite initialize_loop_break by exact Hq.
    apply initialize_after_login_run. }
  split; [reflexivity|].
  split. { cbn. rewrite <- !app_assoc. reflexivity. }
  repeat split; reflexivity.
Qed.

(** ** Polling for an order record (C6) *)

Lemma event_step_trace (e : event_action) (w : World) :
  trace (event_step e w) = trace w.
Proof. destruct e; cbn [event_step]; try reflexivity. by destruct (table_of t (data w) !! key). Qed.

Lemma event_batch_trace (es : list event_action) (w : World) :
  trace (event_batch es w) = trace w.
Proof.
  revert w. induction es as [|e es IH]; intros w; [reflexivity|].
  cbn [event_batch foldl]. fold (event_batch es (event_step e w)).
  by rewrite IH, event_step_trace.
Qed.

Lemma event_step_quiet (order_number : string) (e : event_action) (w : World) :
  writes_order order_number e = false ->
  order_number_to_info (data (event_step e w)) !! order_number =
  order_number_to_info (data w) !! order_number.
Proof.
  intros Hq. destruct e; cbn [event_step]; try reflexivity.
  - by destruct (table_of t (data w) !! key).
  - cbn in Hq. apply bool_decide_eq_false in Hq. cbn. by apply lookup_insert_ne.
Qed.

Lemma event_batch_quiet (order_number : string) (es : list event_action) (w : World) :
  Forall (fun e => writes_order order_number e = false) es ->
  order_number_to_info (data (event_batch es w)) !! order_number =
  order_number_to_info (data w) !! order_number.
Proof.
  intros Hes. revert w. induction Hes as [|e es He Hes IH]; intros w; [reflexivity|].
  cbn [event_batch foldl]. fold (event_batch es (event_step e w)).
  by rewrite IH, event_step_quiet.
Qed.

Lemma event_batch_writes (order_number : string) (info : gmap string string)
    (es : list event_action) (w : World) :
  order_number_to_info
    (data (event_batch (es ++ [write_order_info order_number info]) w)) !! order_number
  = Some info.
Proof.
  unfold event_batch. rewrite foldl_app. cbn. apply lookup_insert_eq.
Qed.

(** A poll that finds the record returns it, without a sleep. *)
Lemma get_order_info_present (fuel : nat) (order_number : string)
    (info : gmap string string) (sc : script) (w : World) :
  order_number_to_info (data w) !! order_number = Some info ->
  run (get_order_info (S fuel) order_number) sc w = (w, sc, Return info).
Proof.
  intros Hin. cbn [get_order_info].
  erewrite run_done; [reflexivity|reflexivity|].
  cbn [exec]. unfold exec_dict_item. by rewrite Hin.
Qed.

(** A poll that does not find the record sleeps one second and polls
    again. *)
Lemma get_order_info_absent_nil (fuel : nat) (order_number : string) (w : World) :
  order_number_to_info (data w) !! order_number = None ->
  run (get_order_info (S fuel) order_number) [] w =
  run (get_order_info fuel order_number) [] (slept 1 w).
Proof.
  intros Hout. cbn [get_order_info].
  erewrite run_throw.
  2:{ cbn [exec]. unfold exec_dict_item. by rewrite Hout. }
  apply run_sleep_nil.
Qed.

Lemma get_order_info_absent_cons (fuel : nat) (order_number : string)
    (es : list event_action) (sc : script) (w : World) :
  order_number_to_info (data w) !! order_number = None ->
  run (get_order_info (S fuel) order_number) (es :: sc) w =
  run (get_order_info fuel order_number) sc (event_batch es (slept 1 w)).
Proof.
  intros Hout. cbn [get_order_info].
  erewrite run_throw.
  2:{ cbn [exec]. unfold exec_dict_item. by rewrite Hout. }
  apply run_sleep_cons.
Qed.

Lemma slept_trace (n : nat) (s : Z) (w w' : World) :
  trace w' = trace (slept s w) ++ replicate n (Slept s) ->
  trace w' = trace w ++ replicate (S n) (Slept s).
Proof. intros ->. cbn. by rewrite <- app_assoc. Qed.

(** While nobody writes the record, [n] polls are [n] sleeps of one
    second, and the loop has not ended. *)
Lemma get_order_info_keeps_polling (n : nat) (order_number : string)
    (sc : script) (w : World) :
  order_number_to_info (data w) !! order_number = None ->
  quiet order_number sc ->
  exists w' : World,
    run (get_order_info n order_number) sc w = (w', drop n sc, OutOfFuel) /\
    trace w' = trace w ++ replicate n (Slept 1) /\
    order_number_to_info (data w') !! order_number = None.
Proof.
  revert sc w. induction n as [|n IH]; intros sc w Hout Hsc.
  - exists w. cbn. rewrite app_nil_r. by destruct sc.
  - destruct Hsc as [|es sc Hes Hsc].
    + rewrite get_order_info_absent_nil by exact Hout.
      destruct (IH [] (slept 1 w)) as (w' & Hrun & Htr & Hout'); [exact Hout|constructor|].
      rewrite drop_nil in Hrun.
      exists w'. split; [exact Hrun|]. split; [by apply slept_trace|exact Hout'].
    + rewrite get_order_info_absent_cons by exact Hout.
      destruct (IH sc (event_batch es (slept 1 w))) as (w' & Hrun & Htr & Hout');
        [by rewrite event_batch_quiet|exact Hsc|].
      exists w'. split; [exact Hrun|]. split; [|exact Hout'].
      rewrite event_batch_trace in Htr. by apply slept_trace.
Qed.

(** C6.  While the record of the order is absent and the event thread
    does not write it, [get_order_info] does not return: after any number
    [n] of polls it has slept [n] times one second and is still in its
    loop, so no count of retries ends the wait.  When the event thread
    writes the record during a sleep, the poll that follows returns the
    record that was written, and the waits left in the script are not
    used. *)
Theorem get_order_info_polls (order_number : string) (pre : script) (w : World) :
  order_number_to_info (data w) !! order_number = None ->
  quiet order_number pre ->
  (forall n : nat, exists w' : World,
     run (get_order_info n order_number) pre w = (w', drop n pre, OutOfFuel) /\
     trace w' = trace w ++ replicate n (Slept 1)) /\
  (forall (fuel : nat) (es : list event_action) (info : gmap string string)
          (post : script),
     (length pre + 1 < fuel)%nat ->
     exists w' : World,
       run (get_order_info fuel order_number)
           (pre ++ (es ++ [write_order_info order_number info]) :: post) w
         = (w', post, Return info) /\
       trace w' = trace w ++ replicate (S (length pre)) (Slept 1) /\
       order_number_to_info (data w') !! order_number = Some info).
Proof.
  intros Hout Hpre. split.
  - intros n. destruct (get_order_info_keeps_polling n order_number pre w Hout Hpre)
      as (w' & Hrun & Htr & _). by exists w'.
  - intros fuel es info post Hfuel.
    revert w fuel Hout Hfuel. induction Hpre as [|qs pre Hqs Hpre IH]; intros w fuel Hout Hfuel.
    + destruct fuel as [|[|fuel]]; [cbn in Hfuel; lia|cbn in Hfuel; lia|].
      cbn [app]. rewrite get_order_info_absent_cons by exact Hout.
      set (w1 := event_batch (es ++ [write_order_info order_number info]) (slept 1 w)).
      assert (Hin : order_number_to_info (data w1) !! order_number = Some info)
        by apply event_batch_writes.
      rewrite (get_order_info_present _ _ info) by exact Hin.
      exists w1. split; [reflexivity|]. split; [|exact Hin].
      unfold w1. by rewrite event_batch_trace.
    + destruct fuel as [|fuel]; [cbn in Hfuel; lia|].
      cbn [app]. rewrite get_order_info_absent_cons by exact Hout.
      destruct (IH (event_batch qs (slept 1 w)) fuel) as (w' & Hrun & Htr & Hin).
      * by rewrite event_batch_quiet.
      * cbn [length] in Hfuel. lia.
      * exists w'. split; [exact Hrun|]. split; [|exact Hin].
        rewrite event_batch_trace in Htr. cbn [length]. by apply slept_trace.
Qed.

(** ** Reading a record does not remove it; reading a slot does (C5) *)

Lemma get_order_info_returned (fuel : nat) (order_number : string)
    (sc sc' : script) (w w' : World) (info : gmap string string) :
  run (get_order_info fuel order_number) sc w = (w', sc', Return info) ->
  order_number_to_info (data w') !! order_number = Some info.
Proof.
  revert sc w. induction fuel as [|fuel IH]; intros sc w Hrun.
  - destruct sc; discriminate Hrun.
  - destruct (order_number_to_info (data w) !! order_number) as [info0|] eqn:Hlook.
    + rewrite (get_order_info_present _ _ info0) in Hrun by exact Hlook.
      by injection Hrun as <- _ <-.
    + destruct sc as [|es sc].
      * rewrite get_order_info_absent_nil in Hrun by exact Hlook. by eapply IH.
      * rewrite get_order_info_absent_cons in Hrun by exact Hlook. by eapply IH.
Qed.

(** C5, as the code has it.  The slot of a tokenized request is created
    by the request itself, before its signal goes out, and is gone when
    the request returns: this holds for [get_deposit], [request_order]
    and [get_matching_stocks], whatever the event thread did meanwhile.
    An order record is not removed by reading it: when [get_order_info]
    returns a record, the order map still holds that record under the
    order number. *)
Theorem slots_removed_order_records_kept :
  (forall w : World, exists w1 t1,
     steps 3 get_deposit w = Some (w1, t1) /\
     slot_ready RequestNameToTrData (request_name_of "GetDeposit" (issued w)) w1) /\
  (forall (order : order_dict) (w : World), exists w1 t1,
     steps 3 (request_order order) w = Some (w1, t1) /\
     slot_ready RequestNameToTrData
       (request_name_of ("RequestOrder-" +:+ order_stock_code order) (issued w)) w1) /\
  (forall (condition_name : string) (condition_index : Z) (w : World), exists w1 t1,
     steps 2 (get_matching_stocks condition_name condition_index) w = Some (w1, t1) /\
     slot_ready ConditionNameToResult condition_name w1) /\
  (forall (sc sc' : script) (w w' : World) (v : value),
     run get_deposit sc w = (w', sc', Return v) ->
     request_name_to_tr_data (data w') !! request_name_of "GetDeposit" (issued w) = None) /\
  (forall (order : order_dict) (sc sc' : script) (w w' : World) (v : value),
     run (request_order order) sc w = (w', sc', Return v) ->
     request_name_to_tr_data (data w')
       !! request_name_of ("RequestOrder-" +:+ order_stock_code order) (issued w) = None) /\
  (forall (condition_name : string) (condition_index : Z) (sc sc' : script)
          (w w' : World) (v : value),
     run (get_matching_stocks condition_name condition_index) sc w = (w', sc', Return v) ->
     condition_name_to_result (data w') !! condition_name = None) /\
  (forall (fuel : nat) (order_number : string) (sc sc' : script) (w w' : World)
          (info : gmap string string),
     run (get_order_info fuel order_number) sc w = (w', sc', Return info) ->
     order_number_to_info (data w') !! order_number = Some info).
Proof.
  split; [|split; [|split; [|split; [|split; [|split]]]]].
  - intros w. destruct (get_deposit_steps w) as [H3 _]. eexists _, _.
    split; [exact H3|apply slot_installed_ready].
  - intros order w. destruct (request_order_steps order w) as [H3 _]. eexists _, _.
    split; [exact H3|apply slot_installed_ready].
  - intros name index w. destruct (get_matching_stocks_steps name index w) as [H2 _].
    eexists _, _. split; [exact H2|apply slot_installed_ready].
  - intros sc sc' w w' v Hrun. rewrite get_deposit_run in Hrun.
    exact (await_slot_returned RequestNameToTrData _ _ _ _ _ _ Hrun).
  - intros order sc sc' w w' v Hrun. rewrite request_order_run in Hrun.
    exact (await_slot_returned RequestNameToTrData _ _ _ _ _ _ Hrun).
  - intros name index sc sc' w w' v Hrun. rewrite get_matching_stocks_run in Hrun.
    exact (await_slot_returned ConditionNameToResult _ _ _ _ _ _ Hrun).
  - intros fuel order_number sc sc' w w' info. apply get_order_info_returned.
Qed.

(** ** The staleness check (C3) *)

Lemma get_price_info_present (fuel : nat) (stock_code : string) (p : PriceInfo)
    (sc : script) (w : World) :
  price_info (data w) !! stock_code = Some p ->
  run (get_price_info (S fuel) stock_code) sc w =
    (with_trace (trace w ++ price_staleness_log stock_code p (clock w)) w, sc, Return p).
Proof.
  intros Hin. unfold get_price_info. cbn [price_info_loop].
  erewrite run_done; [|reflexivity|].
  2:{ cbn [exec]. unfold exec_dict_item. by rewrite Hin. }
  erewrite run_done by reflexivity.
  unfold price_staleness_log.
  destruct (total_seconds_gt _ 10).
  - do 3 (erewrite run_done by reflexivity).
    cbn [run]. f_equal. f_equal. unfold with_trace. cbn. f_equal.
    by rewrite <- !app_assoc.
  - cbn [run]. by rewrite with_trace_nil.
Qed.

Lemma get_ask_bid_info_present (fuel : nat) (stock_code : string) (a : AskBidInfo)
    (sc : script) (w : World) :
  ask_bid_info (data w) !! stock_code = Some a ->
  run (get_ask_bid_info (S fuel) stock_code) sc w =
    (with_trace (trace w ++ ask_bid_staleness_log stock_code a (clock w)) w, sc, Return a).
Proof.
  intros Hin. unfold get_ask_bid_info. cbn [ask_bid_info_loop].
  erewrite run_done; [|reflexivity|].
  2:{ cbn [exec]. unfold exec_dict_item. by rewrite Hin. }
  erewrite run_done by reflexivity.
  unfold ask_bid_staleness_log.
  destruct (total_seconds_gt _ 10).
  - do 3 (erewrite run_done by reflexivity).
    cbn [run]. f_equal. f_equal. unfold with_trace. cbn. f_equal.
    by rewrite <- !app_assoc.
  - cbn [run]. by rewrite with_trace_nil.
Qed.

(** With the entry's time on the date of a time-only value, the delta is
    the difference of the two times of day. *)
Lemma time_of_day_delta (now info_time : datetime) :
  date_ordinal info_time = ordinal_1900_01_01 ->
  datetime_sub (replace_1900_01_01 now) info_time = time_us now - time_us info_time.
Proof.
  intros Hd. unfold datetime_sub, replace_1900_01_01. cbn [date_ordinal time_us].
  rewrite Hd. lia.
Qed.

(** C3.  For an entry that is in [price_info], with its event time a
    time of day (on 1900-01-01, the date of a time-only [datetime]),
    [get_price_info] returns the entry, without a sleep or a wait,
    whatever its age.  It logs the three warnings, the last made of the
    stock code, the event time and the current time (moved to
    1900-01-01) between the literal pieces of the f-string, when the
    current time of day is more than 10 seconds after the event time,
    and logs nothing when it is at most 10 seconds after it. *)
Theorem get_price_info_staleness (fuel : nat) (stock_code : string) (p : PriceInfo)
    (sc : script) (w : World) :
  price_info (data w) !! stock_code = Some p ->
  date_ordinal (trade_time p) = ordinal_1900_01_01 ->
  let elapsed_us := time_us (clock w) - time_us (trade_time p) in
  let cur_time := replace_1900_01_01 (clock w) in
  exists log : list event,
    run (get_price_info (S fuel) stock_code) sc w
      = (with_trace (trace w ++ log) w, sc, Return p) /\
    (10 * us_per_second < elapsed_us ->
     log = [Warned [Lit "!!! 실시간 체결 데이터의 시간이 실제 시간과 큰 차이가 있습니다. !!!"];
            Warned [Lit "!!! 주식이 상/하한가이거나 과열될 경우 일어날 수 있습니다. !!!"];
            Warned [Lit "!!! "; FStr stock_code; Lit " - "; FTime (trade_time p);
                    Lit " vs "; FTime cur_time; Lit " !!!"]]) /\
    (elapsed_us <= 10 * us_per_second -> log = []).
Proof.
  intros Hin Hdate elapsed_us cur_time.
  exists (price_staleness_log stock_code p (clock w)).
  split; [by apply get_price_info_present|].
  unfold price_staleness_log, total_seconds_gt.
  rewrite (time_of_day_delta _ _ Hdate). fold elapsed_us.
  destruct (Z.ltb_spec (10 * us_per_second) elapsed_us) as [Hlt|Hle].
  - split; [reflexivity|]. intros Hle. lia.
  - split; [|reflexivity]. intros Hlt. lia.
Qed.

(** X10.  The same check in [get_ask_bid_info], on the time of the quote:
    a quote entry that is present is returned whatever its age, with the
    three warnings, the last made of the stock code, the quote time and
    the current time, when it is more than 10 seconds old and with no log
    when it is at most 10 seconds old. *)
Lemma get_ask_bid_info_staleness (fuel : nat) (stock_code : string) (a : AskBidInfo)
    (sc : script) (w : World) :
  ask_bid_info (data w) !! stock_code = Some a ->
  date_ordinal (quote_time a) = ordinal_1900_01_01 ->
  let elapsed_us := time_us (clock w) - time_us (quote_time a) in
  let cur_time := replace_1900_01_01 (clock w) in
  exists log : list event,
    run (get_ask_bid_info (S fuel) stock_code) sc w
      = (with_trace (trace w ++ log) w, sc, Return a) /\
    (10 * us_per_second < elapsed_us ->
     log = [Warned [Lit "!!! 실시간 호가 데이터의 시간이 실제 시간과 큰 차이가 있습니다. !!!"];
            Warned [Lit "!!! 주식이 상/하한가이거나 과열될 경우 일어날 수 있습니다. !!!"];
            Warned [Lit "!!! "; FStr stock_code; Lit " - "; FTime (quote_time a);
                    Lit " vs "; FTime cur_time; Lit " !!!"]]) /\
    (elapsed_us <= 10 * us_per_second -> log = []).
Proof.
  intros Hin Hdate elapsed_us cur_time.
  exists (ask_bid_staleness_log stock_code a (clock w)).
  split; [by apply get_ask_bid_info_present|].
  unfold ask_bid_staleness_log, total_seconds_gt.
  rewrite (time_of_day_delta _ _ Hdate). fold elapsed_us.
  destruct (Z.ltb_spec (10 * us_per_second) elapsed_us) as [Hlt|Hle].
  - split; [reflexivity|]. intros Hle. lia.
  - split; [|reflexivity]. intros Hlt. lia.
Qed.

(** ** What the event thread leaves alone *)

Lemma event_step_tables (e : event_action) (t : table) (w : World) :
  table_of t (data (event_step e w)) = table_of t (data w).
Proof.
  destruct e; cbn [event_step]; try (by destruct t).
  by destruct (table_of t0 (data w) !! key).
Qed.

Lemma event_batch_tables (es : list event_action) (t : table) (w : World) :
  table_of t (data (event_batch es w)) = table_of t (data w).
Proof.
  revert w. induction es as [|e es IH]; intros w; [reflexivity|].
  cbn [event_batch foldl]. fold (event_batch es (event_step e w)).
  by rewrite IH, event_step_tables.
Qed.

Lemma event_batches_tables (used : script) (t : table) (w : World) :
  table_of t (data (event_batches used w)) = table_of t (data w).
Proof.
  revert w. induction used as [|es used IH]; intros w; [reflexivity|].
  cbn [event_batches foldl]. fold (event_batches used (event_batch es w)).
  by rewrite IH, event_batch_tables.
Qed.

Lemma event_batches_trace (used : script) (w : World) :
  trace (event_batches used w) = trace w.
Proof.
  revert w. induction used as [|es used IH]; intros w; [reflexivity|].
  cbn [event_batches foldl]. fold (event_batches used (event_batch es w)).
  by rewrite IH, event_batch_trace.
Qed.

Lemma heap_put_length (l : loc) (v : value) (h : list Queue) :
  length (heap_put l v h) = length h.
Proof.
  unfold heap_put. destruct (h !! l) as [q|]; [|reflexivity].
  destruct (Queue_put v q); [apply length_insert|reflexivity].
Qed.

Lemma event_step_heap_length (e : event_action) (w : World) :
  length (heap (event_step e w)) = length (heap w).
Proof.
  destruct e; cbn [event_step]; try reflexivity.
  destruct (table_of t (data w) !! key); [apply heap_put_length|reflexivity].
Qed.

Lemma event_batch_heap_length (es : list event_action) (w : World) :
  length (heap (event_batch es w)) = length (heap w).
Proof.
  revert w. induction es as [|e es IH]; intros w; [reflexivity|].
  cbn [event_batch foldl]. fold (event_batch es (event_step e w)).
  by rewrite IH, event_step_heap_length.
Qed.

Lemma event_batches_heap_length (used : script) (w : World) :
  length (heap (event_batches used w)) = length (heap w).
Proof.
  revert w. induction used as [|es used IH]; intros w; [reflexivity|].
  cbn [event_batches foldl]. fold (event_batches used (event_batch es w)).
  by rewrite IH, event_batch_heap_length.
Qed.

(** [run_act_cases] with the world of the action named: it is the world
    of the start after the batches the thread waited through. *)
Lemma run_act_waited {A B : Type} (a : action B) (k : B -> Thread A) (h : exn -> Thread A)
    (sc : script) (w : World) :
  is_sleep a = false ->
  exists (used sc1 : script),
    sc = used ++ sc1 /\
    ((exists b w2, exec a (event_batches used w) = Done b w2 /\
                   run (Act a k h) sc w = run (k b) sc1 w2) \/
     (exists e, exec a (event_batches used w) = Throw e /\
                run (Act a k h) sc w = run (h e) sc1 (event_batches used w)) \/
     (sc1 = [] /\ exec a (event_batches used w) = Wait /\
      run (Act a k h) sc w = (event_batches used w, [], Act a k h))).
Proof.
  intros Hs. revert w. induction sc as [|es sc IH]; intros w.
  - exists [], []. split; [reflexivity|]. cbn [event_batches foldl].
    destruct (exec a w) as [b w2|e|] eqn:He.
    + left. exists b, w2. split; [reflexivity|]. by apply run_done.
    + right; left. exists e. split; [reflexivity|]. by apply run_throw.
    + right; right. split; [reflexivity|]. split; [reflexivity|]. by apply run_wait_nil.
  - destruct (exec a w) as [b w2|e|] eqn:He.
    + exists [], (es :: sc). split; [reflexivity|]. cbn [event_batches foldl].
      left. exists b, w2. split; [exact He|]. by apply run_done.
    + exists [], (es :: sc). split; [reflexivity|]. cbn [event_batches foldl].
      right; left. exists e. split; [exact He|]. by apply run_throw.
    + destruct (IH (event_batch es w)) as (used & sc1 & -> & Hcases).
      exists (es :: used), sc1. split; [reflexivity|].
      rewrite (run_wait_cons _ _ _ _ _ _ He).
      cbn [event_batches foldl]. fold (event_batches used (event_batch es w)).
      exact Hcases.
Qed.

(** ** The read of a slot, in full *)

(** A read that returns has waited through some batches, found its value
    at the head of the queue its entry names, and deleted the entry. *)
Lemma await_slot_footprint (t : table) (key : string) (sc sc' : script)
    (w w' : World) (v : value) :
  run (await_slot t key) sc w = (w', sc', Return v) ->
  exists (used : script) (l : loc) (q q' : Queue),
    sc = used ++ sc' /\
    table_of t (data w) !! key = Some l /\
    heap (event_batches used w) !! l = Some q /\
    Queue_get q = Some (v, q') /\
    w' = slot_removed t key
           (with_heap (<[l := q']> (heap (event_batches used w))) (event_batches used w)).
Proof.
  unfold await_slot. intros Hrun.
  destruct (table_of t (data w) !! key) as [l|] eqn:Hl.
  2:{ erewrite run_throw in Hrun; [discriminate Hrun|].
      cbn [exec]. unfold exec_dict_item. by rewrite Hl. }
  erewrite run_done in Hrun; [|reflexivity|].
  2:{ cbn [exec]. unfold exec_dict_item. by rewrite Hl. }
  destruct (run_act_waited (Get l)
              (fun result => Act (DelItem t key) (fun _ => Return result) Raise)
              Raise sc w eq_refl)
    as (used & sc1 & -> & [(r & w2 & He & Hr)|[(e & He & Hr)|(_ & _ & Hr)]]);
    rewrite Hr in Hrun; [|discriminate Hrun|discriminate Hrun].
  clear Hr. cbn [exec] in He.
  destruct (heap (event_batches used w) !! l) as [q|] eqn:Hq; [|discriminate He].
  destruct (Queue_get q) as [[r' q']|] eqn:Hget; [|discriminate He].
  injection He as -> <-.
  erewrite run_done in Hrun; [|reflexivity|].
  2:{ cbn [exec data with_heap]. rewrite event_batches_tables, Hl. reflexivity. }
  cbn [run] in Hrun. injection Hrun as <- <- <-.
  exists used, l, q, q'. repeat split; try first [assumption|reflexivity].
  unfold slot_removed. cbn [data with_heap]. by rewrite event_batches_tables.
Qed.

Lemma tokenized_run (m : tokenized) (sc : script) (w : World) :
  run (tokenized_thread m) sc w =
  run (await_slot (tokenized_table m) (tokenized_key request_name_of m w)) sc
    (emitted (tokenized_signal request_name_of m w)
       (slot_installed (tokenized_table m) (tokenized_key request_name_of m w)
          (tokenized_named m w))).
Proof.
  destruct m as [|order|name index]; cbn [tokenized_thread].
  - apply get_deposit_run.
  - apply request_order_run.
  - apply get_matching_stocks_run.
Qed.

Lemma table_of_with_table_ne (t t' : table) (m : gmap string loc) (d : MarketData) :
  t' <> t -> table_of t' (with_table t m d) = table_of t' d.
Proof. by destruct t, t'. Qed.

Lemma tokenized_named_tables (m : tokenized) (t : table) (w : World) :
  table_of t (data (tokenized_named m w)) = table_of t (data w).
Proof. by destruct m. Qed.

Lemma tokenized_named_heap (m : tokenized) (w : World) :
  heap (tokenized_named m w) = heap w.
Proof. by destruct m. Qed.

Lemma tokenized_named_trace (m : tokenized) (w : World) :
  trace (tokenized_named m w) = trace w.
Proof. by destruct m. Qed.

(** X1.  A tokenized method that returns has changed the dictionaries in
    one place only: the entry of its own key is absent (also when another
    request had put one there), every other entry of that dictionary and
    the whole other dictionary are as before.  It has emitted its one
    request signal and nothing else, and created one queue object. *)
Theorem tokenized_request_footprint (m : tokenized) (sc sc' : script)
    (w w' : World) (v : value) :
  run (tokenized_thread m) sc w = (w', sc', Return v) ->
  let t := tokenized_table m in
  let key := tokenized_key request_name_of m w in
  table_of t (data w') = delete key (table_of t (data w)) /\
  (forall t' : table, t' <> t -> table_of t' (data w') = table_of t' (data w)) /\
  trace w' = trace w ++ [Emitted (tokenized_signal request_name_of m w)] /\
  length (heap w') = S (length (heap w)).
Proof.
  intros Hrun t key. rewrite tokenized_run in Hrun. fold t key in Hrun.
  apply await_slot_footprint in Hrun
    as (used & l & q & q' & _ & _ & _ & _ & ->).
  unfold slot_removed.
  cbn [data heap trace with_data with_heap].
  rewrite table_of_with_table, !event_batches_tables, event_batches_trace.
  rewrite length_insert, event_batches_heap_length.
  unfold emitted, slot_installed.
  cbn [data heap trace with_data with_heap with_trace].
  rewrite table_of_with_table, !tokenized_named_tables, tokenized_named_heap,
    tokenized_named_trace.
  split; [apply delete_insert_eq|].
  split.
  - intros t' Hne. rewrite table_of_with_table_ne by exact Hne.
    rewrite event_batches_tables. cbn [data with_data with_trace].
    rewrite table_of_with_table_ne by exact Hne. apply tokenized_named_tables.
  - split; [reflexivity|]. rewrite length_app. cbn. lia.
Qed.

(** ** Traffic for other slots *)

Lemma heap_put_other (l l' : loc) (v : value) (h : list Queue) :
  l' <> l -> heap_put l' v h !! l = h !! l.
Proof.
  intros Hne. unfold heap_put. destruct (h !! l') as [q|]; [|reflexivity].
  destruct (Queue_put v q); [by apply list_lookup_insert_ne|reflexivity].
Qed.

Lemma heap_put_ready (l : loc) (v : value) (h : list Queue) :
  h !! l = Some (Queue_new 1) -> heap_put l v h !! l = Some (mkQueue 1 [v]).
Proof.
  intros Hq. unfold heap_put. rewrite Hq. cbn.
  apply list_lookup_insert_eq. by eapply lookup_lt_Some.
Qed.

Lemma event_step_unaliased (e : event_action) (t : table) (key : string) (l : loc)
    (w : World) :
  unaliased t key l w -> unaliased t key l (event_step e w).
Proof.
  intros Hun t' key' Hl. rewrite event_step_tables in Hl. by apply Hun.
Qed.

Lemma event_step_foreign (e : event_action) (t : table) (key : string) (l : loc)
    (w : World) :
  unaliased t key l w ->
  delivers_to t key e = false ->
  heap (event_step e w) !! l = heap w !! l.
Proof.
  intros Hun He. destruct e as [| |t' key' v| | | | |]; cbn [event_step]; try reflexivity.
  destruct (table_of t' (data w) !! key') as [l'|] eqn:Hl'; [|reflexivity].
  cbn [heap with_heap]. apply heap_put_other. intros ->.
  destruct (Hun t' key' Hl') as [-> ->].
  cbn [delivers_to] in He. by rewrite !bool_decide_eq_true_2 in He.
Qed.

Lemma event_batch_foreign (es : list event_action) (t : table) (key : string) (l : loc)
    (w : World) :
  unaliased t key l w ->
  foreign_batch t key es ->
  heap (event_batch es w) !! l = heap w !! l /\ unaliased t key l (event_batch es w).
Proof.
  intros Hun Hes. revert w Hun. induction Hes as [|e es He Hes IH]; intros w Hun.
  - by split.
  - cbn [event_batch foldl]. fold (event_batch es (event_step e w)).
    destruct (IH (event_step e w)) as [Hh Hu]; [by apply event_step_unaliased|].
    split; [|exact Hu]. rewrite Hh. by apply event_step_foreign with (t := t) (key := key).
Qed.

(** The batch in which the value for the slot arrives, among traffic that
    is not for it. *)
Lemma event_batch_delivers (es1 es2 : list event_action) (t : table) (key : string)
    (l : loc) (v : value) (w : World) :
  table_of t (data w) !! key = Some l ->
  heap w !! l = Some (Queue_new 1) ->
  unaliased t key l w ->
  foreign_batch t key es1 ->
  foreign_batch t key es2 ->
  heap (event_batch (es1 ++ deliver t key v :: es2) w) !! l = Some (mkQueue 1 [v]).
Proof.
  intros Hl Hq Hun H1 H2.
  unfold event_batch. rewrite foldl_app. cbn [foldl].
  fold (event_batch es1 w).
  destruct (event_batch_foreign es1 t key l w Hun H1) as [Hh1 Hu1].
  set (w1 := event_batch es1 w) in *.
  fold (event_batch es2 (event_step (deliver t key v) w1)).
  destruct (event_batch_foreign es2 t key l (event_step (deliver t key v) w1)) as [Hh2 _];
    [by apply event_step_unaliased|exact H2|].
  rewrite Hh2. cbn [event_step]. unfold w1 at 1. rewrite event_batch_tables, Hl.
  cbn [heap with_heap]. apply heap_put_ready. by rewrite Hh1.
Qed.

(** A thread that waits on an empty queue sits through traffic that is
    not for its slot. *)
Lemma get_waits_foreign {A : Type} (l : loc) (k : value -> Thread A) (h : exn -> Thread A)
    (t : table) (key : string) (pre sc : script) (w : World) :
  heap w !! l = Some (Queue_new 1) ->
  unaliased t key l w ->
  foreign t key pre ->
  run (Act (Get l) k h) (pre ++ sc) w = run (Act (Get l) k h) sc (event_batches pre w) /\
  heap (event_batches pre w) !! l = Some (Queue_new 1) /\
  unaliased t key l (event_batches pre w).
Proof.
  intros Hq Hun Hpre. revert w Hq Hun.
  induction Hpre as [|es pre Hes Hpre IH]; intros w Hq Hun.
  - split; [reflexivity|]. split; assumption.
  - cbn [app event_batches foldl]. fold (event_batches pre (event_batch es w)).
    destruct (event_batch_foreign es t key l w Hun Hes) as [Hh Hu].
    rewrite run_wait_cons.
    2:{ cbn [exec]. by rewrite Hq. }
    apply IH; [by rewrite Hh|exact Hu].
Qed.

(** The read of a ready, unaliased slot: it waits through the traffic for
    other slots and returns the value delivered for its own. *)
Lemma await_slot_answered (t : table) (key : string) (l : loc) (v : value)
    (pre post : script) (es1 es2 : list event_action) (w : World) :
  table_of t (data w) !! key = Some l ->
  heap w !! l = Some (Queue_new 1) ->
  unaliased t key l w ->
  foreign t key pre ->
  foreign_batch t key es1 ->
  foreign_batch t key es2 ->
  exists w' : World,
    run (await_slot t key) (pre ++ (es1 ++ deliver t key v :: es2) :: post) w
      = (w', post, Return v) /\
    table_of t (data w') !! key = None.
Proof.
  intros Hl Hq Hun Hpre H1 H2. unfold await_slot.
  erewrite run_done; [|reflexivity|].
  2:{ cbn [exec]. unfold exec_dict_item. by rewrite Hl. }
  destruct (get_waits_foreign l
              (fun result => Act (DelItem t key) (fun _ => Return result) Raise) Raise
              t key pre ((es1 ++ deliver t key v :: es2) :: post) w Hq Hun Hpre)
    as (-> & Hq' & Hun').
  set (w1 := event_batches pre w) in *.
  assert (Hl' : table_of t (data w1) !! key = Some l)
    by (unfold w1; by rewrite event_batches_tables).
  rewrite run_wait_cons.
  2:{ cbn [exec]. by rewrite Hq'. }
  pose proof (event_batch_delivers es1 es2 t key l v w1 Hl' Hq' Hun' H1 H2) as Hfull.
  set (w2 := event_batch (es1 ++ deliver t key v :: es2) w1) in *.
  erewrite run_done; [|reflexivity|].
  2:{ cbn [exec]. rewrite Hfull. cbn [Queue_get items maxsize]. reflexivity. }
  erewrite run_done; [|reflexivity|].
  2:{ cbn [exec data with_heap]. unfold w2. rewrite event_batch_tables, Hl'. reflexivity. }
  eexists. split; [reflexivity|].
  cbn [data with_data with_heap]. rewrite table_of_with_table. apply lookup_delete_eq.
Qed.

(** The same read with no delivery for its slot: it waits, and the entry
    stays. *)
Lemma await_slot_starved (t : table) (key : string) (l : loc) (sc : script) (w : World) :
  table_of t (data w) !! key = Some l ->
  heap w !! l = Some (Queue_new 1) ->
  unaliased t key l w ->
  foreign t key sc ->
  exists (w1 : World) (rest : Thread value),
    run (await_slot t key) sc w = (w1, [], rest) /\
    status_of rest = Before (Get l) /\
    table_of t (data w1) !! key = Some l /\
    trace w1 = trace w.
Proof.
  intros Hl Hq Hun Hsc. unfold await_slot.
  erewrite run_done; [|reflexivity|].
  2:{ cbn [exec]. unfold exec_dict_item. by rewrite Hl. }
  destruct (get_waits_foreign l
              (fun result => Act (DelItem t key) (fun _ => Return result) Raise) Raise
              t key sc [] w Hq Hun Hsc)
    as (Hrun & Hq' & _).
  rewrite app_nil_r in Hrun. rewrite Hrun.
  rewrite run_wait_nil.
  2:{ cbn [exec]. by rewrite Hq'. }
  eexists _, _. split; [reflexivity|]. split; [reflexivity|].
  split; [by rewrite event_batches_tables|apply event_batches_trace].
Qed.

(** In a world whose entries all name existing queues, the slot a
    tokenized method installs is ready and is named by its entry only. *)
Lemma slot_installed_unaliased (t : table) (key : string) (w : World) :
  heap_closed w ->
  unaliased t key (length (heap w)) (slot_installed t key w).
Proof.
  intros Hclosed t' key' Hl. unfold slot_installed in Hl. cbn [data with_data with_heap] in Hl.
  destruct (decide (t' = t)) as [->|Hne].
  - rewrite table_of_with_table in Hl. split; [reflexivity|].
    destruct (decide (key' = key)) as [->|Hk]; [reflexivity|].
    rewrite lookup_insert_ne in Hl by congruence.
    apply Hclosed in Hl. lia.
  - rewrite table_of_with_table_ne in Hl by exact Hne.
    apply Hclosed in Hl. lia.
Qed.

Lemma tokenized_named_closed (m : tokenized) (w : World) :
  heap_closed w -> heap_closed (tokenized_named m w).
Proof.
  intros Hc t key l Hl. rewrite tokenized_named_tables in Hl.
  rewrite tokenized_named_heap. by eapply Hc.
Qed.

Lemma tokenized_slot (m : tokenized) (w : World) :
  heap_closed w ->
  let t := tokenized_table m in
  let key := tokenized_key request_name_of m w in
  let w4 := emitted (tokenized_signal request_name_of m w)
              (slot_installed t key (tokenized_named m w)) in
  table_of t (data w4) !! key = Some (length (heap w)) /\
  heap w4 !! length (heap w) = Some (Queue_new 1) /\
  unaliased t key (length (heap w)) w4.
Proof.
  intros Hc t key w4.
  pose proof (tokenized_named_closed m w Hc) as Hc'.
  pose proof (slot_installed_unaliased t key _ Hc') as Hun.
  rewrite tokenized_named_heap in Hun.
  split; [|split].
  - unfold w4, emitted, slot_installed. cbn [data heap with_data with_heap with_trace].
    by rewrite table_of_with_table, lookup_insert_eq, tokenized_named_heap.
  - unfold w4, emitted, slot_installed. cbn [data heap with_data with_heap with_trace].
    rewrite tokenized_named_heap. apply heap_new_lookup.
  - intros t' key' Hl. apply Hun. exact Hl.
Qed.

(** X2.  A tokenized method is answered by the delivery for its own key
    and by nothing else.  In a world whose entries all name existing
    queues, however many batches of other traffic come first (deliveries
    for other keys, login results, streaming writes), and whatever other
    traffic shares the batch of the delivery, the method returns exactly
    the value delivered for its key, uses no later batch, and leaves no
    entry. *)
Theorem tokenized_request_ignores_foreign_traffic (m : tokenized) (pre post : script)
    (es1 es2 : list event_action) (v : value) (w : World) :
  heap_closed w ->
  foreign (tokenized_table m) (tokenized_key request_name_of m w) pre ->
  foreign_batch (tokenized_table m) (tokenized_key request_name_of m w) es1 ->
  foreign_batch (tokenized_table m) (tokenized_key request_name_of m w) es2 ->
  exists w' : World,
    run (tokenized_thread m)
        (pre ++ (es1 ++ deliver (tokenized_table m) (tokenized_key request_name_of m w) v
                          :: es2) :: post) w
      = (w', post, Return v) /\
    table_of (tokenized_table m) (data w') !! tokenized_key request_name_of m w = None.
Proof.
  intros Hc Hpre H1 H2. rewrite tokenized_run.
  destruct (tokenized_slot m w Hc) as (Hl & Hq & Hun).
  by eapply await_slot_answered.
Qed.

(** X3.  A tokenized method has no timeout and no way out but its
    delivery: while no batch carries a delivery for its key it neither
    returns nor raises, however long the script; it has emitted its one
    request and waits on its queue, and its entry stays in the
    dictionary. *)
Theorem tokenized_request_waits_without_delivery (m : tokenized) (sc : script) (w : World) :
  heap_closed w ->
  foreign (tokenized_table m) (tokenized_key request_name_of m w) sc ->
  exists (w1 : World) (rest : Thread value),
    run (tokenized_thread m) sc w = (w1, [], rest) /\
    status_of rest = Before (Get (length (heap w))) /\
    table_of (tokenized_table m) (data w1) !! tokenized_key request_name_of m w
      = Some (length (heap w)) /\
    trace w1 = trace w ++ [Emitted (tokenized_signal request_name_of m w)].
Proof.
  intros Hc Hsc. rewrite tokenized_run.
  destruct (tokenized_slot m w Hc) as (Hl & Hq & Hun).
  destruct (await_slot_starved _ _ _ sc _ Hl Hq Hun Hsc) as (w1 & rest & Hrun & Hst & Hl1 & Htr).
  exists w1, rest. split; [exact Hrun|]. split; [exact Hst|]. split; [exact Hl1|].
  rewrite Htr. cbn [trace emitted with_trace slot_installed with_data with_heap].
  by rewrite tokenized_named_trace.
Qed.

(** ** Polling for a price entry *)

Lemma event_step_quiet_price (stock_code : string) (e : event_action) (w : World) :
  writes_price stock_code e = false ->
  price_info (data (event_step e w)) !! stock_code = price_info (data w) !! stock_code.
Proof.
  intros Hq. destruct e; cbn [event_step]; try reflexivity.
  - by destruct (table_of t (data w) !! key).
  - cbn in Hq. apply bool_decide_eq_false in Hq. cbn. by apply lookup_insert_ne.
Qed.

Lemma event_batch_quiet_price (stock_code : string) (es : list event_action) (w : World) :
  Forall (fun e => writes_price stock_code e = false) es ->
  price_info (data (event_batch es w)) !! stock_code = price_info (data w) !! stock_code.
Proof.
  intros Hes. revert w. induction Hes as [|e es He Hes IH]; intros w; [reflexivity|].
  cbn [event_batch foldl]. fold (event_batch es (event_step e w)).
  by rewrite IH, event_step_quiet_price.
Qed.

Lemma event_batch_writes_price (stock_code : string) (p : PriceInfo)
    (es : list event_action) (w : World) :
  price_info (data (event_batch (es ++ [write_price_info stock_code p]) w)) !! stock_code
  = Some p.
Proof.
  unfold event_batch. rewrite foldl_app. cbn. apply lookup_insert_eq.
Qed.

Lemma price_info_loop_present {A : Type} (fuel : nat) (stock_code : string) (p : PriceInfo)
    (rest : PriceInfo -> Thread A) (sc : script) (w : World) :
  price_info (data w) !! stock_code = Some p ->
  run (price_info_loop (S fuel) stock_code rest) sc w = run (rest p) sc w.
Proof.
  intros Hin. cbn [price_info_loop].
  erewrite run_done; [reflexivity|reflexivity|].
  cbn [exec]. unfold exec_dict_item. by rewrite Hin.
Qed.

Lemma price_info_loop_absent_nil {A : Type} (fuel : nat) (stock_code : string)
    (rest : PriceInfo -> Thread A) (w : World) :
  price_info (data w) !! stock_code = None ->
  run (price_info_loop (S fuel) stock_code rest) [] w =
  run (price_info_loop fuel stock_code rest) [] (slept 1 w).
Proof.
  intros Hout. cbn [price_info_loop].
  erewrite run_throw.
  2:{ cbn [exec]. unfold exec_dict_item. by rewrite Hout. }
  apply run_sleep_nil.
Qed.

Lemma price_info_loop_absent_cons {A : Type} (fuel : nat) (stock_code : string)
    (rest : PriceInfo -> Thread A) (es : list event_action) (sc : script) (w : World) :
  price_info (data w) !! stock_code = None ->
  run (price_info_loop (S fuel) stock_code rest) (es :: sc) w =
  run (price_info_loop fuel stock_code rest) sc (event_batch es (slept 1 w)).
Proof.
  intros Hout. cbn [price_info_loop].
  erewrite run_throw.
  2:{ cbn [exec]. unfold exec_dict_item. by rewrite Hout. }
  apply run_sleep_cons.
Qed.

Lemma price_info_loop_keeps_polling {A : Type} (n : nat) (stock_code : string)
    (rest : PriceInfo -> Thread A) (sc : script) (w : World) :
  price_info (data w) !! stock_code = None ->
  quiet_price stock_code sc ->
  exists w' : World,
    run (price_info_loop n stock_code rest) sc w = (w', drop n sc, OutOfFuel) /\
    trace w' = trace w ++ replicate n (Slept 1).
Proof.
  revert sc w. induction n as [|n IH]; intros sc w Hout Hsc.
  - exists w. cbn. rewrite app_nil_r. by destruct sc.
  - destruct Hsc as [|es sc Hes Hsc].
    + rewrite price_info_loop_absent_nil by exact Hout.
      destruct (IH [] (slept 1 w)) as (w' & Hrun & Htr); [exact Hout|constructor|].
      rewrite drop_nil in Hrun.
      exists w'. split; [exact Hrun|]. by apply slept_trace.
    + rewrite price_info_loop_absent_cons by exact Hout.
      destruct (IH sc (event_batch es (slept 1 w))) as (w' & Hrun & Htr);
        [by rewrite event_batch_quiet_price|exact Hsc|].
      exists w'. split; [exact Hrun|].
      rewrite event_batch_trace in Htr. by apply slept_trace.
Qed.

Lemma price_info_loop_found {A : Type} (fuel : nat) (stock_code : string) (p : PriceInfo)
    (rest : PriceInfo -> Thread A) (pre post : script) (es : list event_action)
    (w : World) :
  price_info (data w) !! stock_code = None ->
  quiet_price stock_code pre ->
  (length pre + 1 < fuel)%nat ->
  exists w1 : World,
    run (price_info_loop fuel stock_code rest)
        (pre ++ (es ++ [write_price_info stock_code p]) :: post) w
      = run (rest p) post w1 /\
    trace w1 = trace w ++ replicate (S (length pre)) (Slept 1) /\
    price_info (data w1) !! stock_code = Some p.
Proof.
  intros Hout Hpre. revert w fuel Hout.
  induction Hpre as [|qs pre Hqs Hpre IH]; intros w fuel Hout Hfuel.
  - destruct fuel as [|[|fuel]]; [cbn in Hfuel; lia|cbn in Hfuel; lia|].
    cbn [app]. rewrite price_info_loop_absent_cons by exact Hout.
    set (w1 := event_batch (es ++ [write_price_info stock_code p]) (slept 1 w)).
    assert (Hin : price_info (data w1) !! stock_code = Some p)
      by apply event_batch_writes_price.
    rewrite (price_info_loop_present _ _ p) by exact Hin.
    exists w1. split; [reflexivity|]. split; [|exact Hin].
    unfold w1. by rewrite event_batch_trace.
  - destruct fuel as [|fuel]; [cbn in Hfuel; lia|].
    cbn [app]. rewrite price_info_loop_absent_cons by exact Hout.
    destruct (IH (event_batch qs (slept 1 w)) fuel) as (w1 & Hrun & Htr & Hin).
    + by rewrite event_batch_quiet_price.
    + cbn [length] in Hfuel. lia.
    + exists w1. split; [exact Hrun|]. split; [|exact Hin].
      rewrite event_batch_trace in Htr. cbn [length]. by apply slept_trace.
Qed.

(** X8.  [get_price_info] on a stock that has no entry never raises and
    never gives up: while the event thread writes no entry for the stock,
    [n] polls are [n] sleeps of one second and the loop goes on.  When
    the entry is written during a sleep, the next poll returns that
    entry, after the staleness check against the clock of that moment. *)
Theorem get_price_info_polls (stock_code : string) (pre : script) (w : World) :
  price_info (data w) !! stock_code = None ->
  quiet_price stock_code pre ->
  (forall n : nat, exists w' : World,
     run (get_price_info n stock_code) pre w = (w', drop n pre, OutOfFuel) /\
     trace w' = trace w ++ replicate n (Slept 1)) /\
  (forall (fuel : nat) (es : list event_action) (p : PriceInfo) (post : script),
     (length pre + 1 < fuel)%nat ->
     exists w' : World,
       run (get_price_info fuel stock_code)
           (pre ++ (es ++ [write_price_info stock_code p]) :: post) w
         = (w', post, Return p) /\
       trace w' = trace w ++ replicate (S (length pre)) (Slept 1)
                    ++ price_staleness_log stock_code p (clock w')).
Proof.
  intros Hout Hpre. split.
  - intros n. unfold get_price_info. by apply price_info_loop_keeps_polling.
  - intros fuel es p post Hfuel. unfold get_price_info.
    match goal with
    | |- context [price_info_loop fuel stock_code ?rest] =>
        destruct (price_info_loop_found fuel stock_code p rest pre post es w
                    Hout Hpre Hfuel) as (w1 & Hrun & Htr & Hin);
        pose proof (price_info_loop_present 0 stock_code p rest post w1 Hin) as Hloop
    end.
    exists (with_trace (trace w1 ++ price_staleness_log stock_code p (clock w1)) w1).
    split.
    + etransitivity; [exact Hrun|]. etransitivity; [symmetry; exact Hloop|].
      exact (get_price_info_present 0 stock_code p post w1 Hin).
    + cbn [trace clock with_trace]. rewrite Htr. by rewrite <- app_assoc.
Qed.

(** ** Polling for a quote entry *)

Lemma event_step_quiet_ask_bid (stock_code : string) (e : event_action) (w : World) :
  writes_ask_bid stock_code e = false ->
  ask_bid_info (data (event_step e w)) !! stock_code = ask_bid_info (data w) !! stock_code.
Proof.
  intros Hq. destruct e; cbn [event_step]; try reflexivity.
  - by destruct (table_of t (data w) !! key).
  - cbn in Hq. apply bool_decide_eq_false in Hq. cbn. by apply lookup_insert_ne.
Qed.

Lemma event_batch_quiet_ask_bid (stock_code : string) (es : list event_action) (w : World) :
  Forall (fun e => writes_ask_bid stock_code e = false) es ->
  ask_bid_info (data (event_batch es w)) !! stock_code = ask_bid_info (data w) !! stock_code.
Proof.
  intros Hes. revert w. induction Hes as [|e es He Hes IH]; intros w; [reflexivity|].
  cbn [event_batch foldl]. fold (event_batch es (event_step e w)).
  by rewrite IH, event_step_quiet_ask_bid.
Qed.

Lemma event_batch_writes_ask_bid (stock_code : string) (p : AskBidInfo)
    (es : list event_action) (w : World) :
  ask_bid_info (data (event_batch (es ++ [write_ask_bid_info stock_code p]) w)) !! stock_code
  = Some p.
Proof.
  unfold event_batch. rewrite foldl_app. cbn. apply lookup_insert_eq.
Qed.

Lemma ask_bid_info_loop_present {A : Type} (fuel : nat) (stock_code : string) (p : AskBidInfo)
    (rest : AskBidInfo -> Thread A) (sc : script) (w : World) :
  ask_bid_info (data w) !! stock_code = Some p ->
  run (ask_bid_info_loop (S fuel) stock_code rest) sc w = run (rest p) sc w.
Proof.
  intros Hin. cbn [ask_bid_info_loop].
  erewrite run_done; [reflexivity|reflexivity|].
  cbn [exec]. unfold exec_dict_item. by rewrite Hin.
Qed.

Lemma ask_bid_info_loop_absent_nil {A : Type} (fuel : nat) (stock_code : string)
    (rest : AskBidInfo -> Thread A) (w : World) :
  ask_bid_info (data w) !! stock_code = None ->
  run (ask_bid_info_loop (S fuel) stock_code rest) [] w =
  run (ask_bid_info_loop fuel stock_code rest) [] (slept 1 w).
Proof.
  intros Hout. cbn [ask_bid_info_loop].
  erewrite run_throw.
  2:{ cbn [exec]. unfold exec_dict_item. by rewrite Hout. }
  apply run_sleep_nil.
Qed.

Lemma ask_bid_info_loop_absent_cons {A : Type} (fuel : nat) (stock_code : string)
    (rest : AskBidInfo -> Thread A) (es : list event_action) (sc : script) (w : World) :
  ask_bid_info (data w) !! stock_code = None ->
  run (ask_bid_info_loop (S fuel) stock_code rest) (es :: sc) w =
  run (ask_bid_info_loop fuel stock_code rest) sc (event_batch es (slept 1 w)).
Proof.
  intros Hout. cbn [ask_bid_info_loop].
  erewrite run_throw.
  2:{ cbn [exec]. unfold exec_dict_item. by rewrite Hout. }
  apply run_sleep_cons.
Qed.

Lemma ask_bid_info_loop_keeps_polling {A : Type} (n : nat) (stock_code : string)
    (rest : AskBidInfo -> Thread A) (sc : script) (w : World) :
  ask_bid_info (data w) !! stock_code = None ->
  quiet_ask_bid stock_code sc ->
  exists w' : World,
    run (ask_bid_info_loop n stock_code rest) sc w = (w', drop n sc, OutOfFuel) /\
    trace w' = trace w ++ replicate n (Slept 1).
Proof.
  revert sc w. induction n as [|n IH]; intros sc w Hout Hsc.
  - exists w. cbn. rewrite app_nil_r. by destruct sc.
  - destruct Hsc as [|es sc Hes Hsc].
    + rewrite ask_bid_info_loop_absent_nil by exact Hout.
      destruct (IH [] (slept 1 w)) as (w' & Hrun & Htr); [exact Hout|constructor|].
      rewrite drop_nil in Hrun.
      exists w'. split; [exact Hrun|]. by apply slept_trace.
    + rewrite ask_bid_info_loop_absent_cons by exact Hout.
      destruct (IH sc (event_batch es (slept 1 w))) as (w' & Hrun & Htr);
        [by rewrite event_batch_quiet_ask_bid|exact Hsc|].
      exists w'. split; [exact Hrun|].
      rewrite event_batch_trace in Htr. by apply slept_trace.
Qed.

Lemma ask_bid_info_loop_found {A : Type} (fuel : nat) (stock_code : string) (p : AskBidInfo)
    (rest : AskBidInfo -> Thread A) (pre post : script) (es : list event_action)
    (w : World) :
  ask_bid_info (data w) !! stock_code = None ->
  quiet_ask_bid stock_code pre ->
  (length pre + 1 < fuel)%nat ->
  exists w1 : World,
    run (ask_bid_info_loop fuel stock_code rest)
        (pre ++ (es ++ [write_ask_bid_info stock_code p]) :: post) w
      = run (rest p) post w1 /\
    trace w1 = trace w ++ replicate (S (length pre)) (Slept 1) /\
    ask_bid_info (data w1) !! stock_code = Some p.
Proof.
  intros Hout Hpre. revert w fuel Hout.
  induction Hpre as [|qs pre Hqs Hpre IH]; intros w fuel Hout Hfuel.
  - destruct fuel as [|[|fuel]]; [cbn in Hfuel; lia|cbn in Hfuel; lia|].
    cbn [app]. rewrite ask_bid_info_loop_absent_cons by exact Hout.
    set (w1 := event_batch (es ++ [write_ask_bid_info stock_code p]) (slept 1 w)).
    assert (Hin : ask_bid_info (data w1) !! stock_code = Some p)
      by apply event_batch_writes_ask_bid.
    rewrite (ask_bid_info_loop_present _ _ p) by exact Hin.
    exists w1. split; [reflexivity|]. split; [|exact Hin].
    unfold w1. by rewrite event_batch_trace.
  - destruct fuel as [|fuel]; [cbn in Hfuel; lia|].
    cbn [app]. rewrite ask_bid_info_loop_absent_cons by exact Hout.
    destruct (IH (event_batch qs (slept 1 w)) fuel) as (w1 & Hrun & Htr & Hin).
    + by rewrite event_batch_quiet_ask_bid.
    + cbn [length] in Hfuel. lia.
    + exists w1. split; [exact Hrun|]. split; [|exact Hin].
      rewrite event_batch_trace in Htr. cbn [length]. by apply slept_trace.
Qed.

(** X9.  [get_ask_bid_info] on a stock that has no quote entry never raises and
    never gives up: while the event thread writes no entry for the stock,
    [n] polls are [n] sleeps of one second and the loop goes on.  When
    the entry is written during a sleep, the next poll returns that
    entry, after the staleness check against the clock of that moment. *)
Theorem get_ask_bid_info_polls (stock_code : string) (pre : script) (w : World) :
  ask_bid_info (data w) !! stock_code = None ->
  quiet_ask_bid stock_code pre ->
  (forall n : nat, exists w' : World,
     run (get_ask_bid_info n stock_code) pre w = (w', drop n pre, OutOfFuel) /\
     trace w' = trace w ++ replicate n (Slept 1)) /\
  (forall (fuel : nat) (es : list event_action) (p : AskBidInfo) (post : script),
     (length pre + 1 < fuel)%nat ->
     exists w' : World,
       run (get_ask_bid_info fuel stock_code)
           (pre ++ (es ++ [write_ask_bid_info stock_code p]) :: post) w
         = (w', post, Return p) /\
       trace w' = trace w ++ replicate (S (length pre)) (Slept 1)
                    ++ ask_bid_staleness_log stock_code p (clock w')).
Proof.
  intros Hout Hpre. split.
  - intros n. unfold get_ask_bid_info. by apply ask_bid_info_loop_keeps_polling.
  - intros fuel es p post Hfuel. unfold get_ask_bid_info.
    match goal with
    | |- context [ask_bid_info_loop fuel stock_code ?rest] =>
        destruct (ask_bid_info_loop_found fuel stock_code p rest pre post es w
                    Hout Hpre Hfuel) as (w1 & Hrun & Htr & Hin);
        pose proof (ask_bid_info_loop_present 0 stock_code p rest post w1 Hin) as Hloop
    end.
    exists (with_trace (trace w1 ++ ask_bid_staleness_log stock_code p (clock w1)) w1).
    split.
    + etransitivity; [exact Hrun|]. etransitivity; [symmetry; exact Hloop|].
      exact (get_ask_bid_info_present 0 stock_code p post w1 Hin).
    + cbn [trace clock with_trace]. rewrite Htr. by rewrite <- app_assoc.
Qed.

(** ** The staleness check on an entry that carries a date *)

(** X11.  The staleness check compares time of day with time of day only
    when the event time of the entry is on 1900-01-01.  An entry whose
    event time carries a later date (a real calendar date) is never found
    stale, however old it is: the current time is moved to 1900-01-01
    before the subtraction, so the difference is negative. *)
Theorem dated_price_is_never_stale (fuel : nat) (stock_code : string) (p : PriceInfo)
    (sc : script) (w : World) :
  price_info (data w) !! stock_code = Some p ->
  ordinal_1900_01_01 < date_ordinal (trade_time p) ->
  0 <= time_us (trade_time p) ->
  time_us (clock w) < us_per_day ->
  run (get_price_info (S fuel) stock_code) sc w = (w, sc, Return p).
Proof.
  intros Hin Hdate Hinfo Hnow.
  rewrite (get_price_info_present fuel stock_code p sc w Hin).
  unfold price_staleness_log, total_seconds_gt, datetime_sub, replace_1900_01_01.
  cbn [date_ordinal time_us].
  destruct (Z.ltb_spec (10 * us_per_second)
              ((ordinal_1900_01_01 - date_ordinal (trade_time p)) * us_per_day
               + (time_us (clock w) - time_us (trade_time p)))) as [Hlt|_].
  - exfalso. unfold us_per_day, us_per_second in *. nia.
  - by rewrite with_trace_nil.
Qed.

(** ** The list of conditions *)

Lemma condition_list_put (v : value) (w : World) :
  items (condition_list (data w)) = [] ->
  exec GetConditionList (event_step (put_condition_list v) w) = Done v w.
Proof.
  intros Hq. cbn [event_step exec].
  unfold queue_put_or_keep. rewrite (Queue_put_empty v _ Hq). cbn.
  destruct w as [d hp n c tr]. destruct d as [ll [m its] cr tr' bal ord pr ab].
  cbn in Hq. subst its. reflexivity.
Qed.

(** X6.  [get_condition] emits the condition request, waits on the one
    queue [condition_list], and returns what the event thread puts
    there; the shared data is afterwards what it was. *)
Theorem get_condition_returns_answer (v : value) (w : World) :
  items (condition_list (data w)) = [] ->
  run get_condition [[put_condition_list v]] w
    = (emitted condition_request_signal w, [], Return v).
Proof.
  intros Hq. unfold get_condition.
  erewrite run_done by reflexivity.
  rewrite run_wait_cons.
  2:{ cbn [exec]. unfold Queue_get. cbn. by rewrite Hq. }
  erewrite run_done; [|reflexivity|].
  2:{ apply (condition_list_put v (emitted condition_request_signal w)). exact Hq. }
  reflexivity.
Qed.

(** X7.  The answers to two concurrent [get_condition] calls can change
    places, as the comment in the source says.  Caller A emits its
    request, then caller B emits its own; the answer to A's request
    arrives first and B, who reads first, returns it; A waits, and
    returns the answer to B's request when that arrives. *)
Theorem get_condition_answers_swap (a b : value) (w : World) :
  items (condition_list (data w)) = [] ->
  exists (wa wb w2 w4 : World) (ta tb : Thread value),
    steps 1 get_condition w = Some (wa, ta) /\
    steps 1 get_condition wa = Some (wb, tb) /\
    steps 1 tb (event_step (put_condition_list a) wb) = Some (w2, Return a) /\
    step ta w2 = None /\
    steps 1 ta (event_step (put_condition_list b) w2) = Some (w4, Return b) /\
    trace w4 = trace w ++ [Emitted condition_request_signal;
                           Emitted condition_request_signal] /\
    data w4 = data w.
Proof.
  intros Hq.
  set (wb := emitted condition_request_signal (emitted condition_request_signal w)).
  assert (Hqb : items (condition_list (data wb)) = []) by exact Hq.
  exists (emitted condition_request_signal w), wb, wb, wb.
  eexists _, _.
  split; [reflexivity|]. split; [reflexivity|].
  split. { cbn [steps step]. by rewrite (condition_list_put a wb Hqb). }
  split. { cbn [step exec]. unfold Queue_get. by rewrite Hqb. }
  split. { cbn [steps step]. by rewrite (condition_list_put b wb Hqb). }
  split; [|reflexivity].
  unfold wb. cbn. by rewrite <- app_assoc.
Qed.

(** ** Reading what is there *)

(** X12.  [get_balance] right after [initialize]: [initialize] returns on
    the zero login result alone, and [get_balance], which neither waits
    nor emits, then returns the holdings as they were before
    [initialize] was called; a holding shows in its result only once the
    event thread has written it. *)
Theorem get_balance_after_initialize (fuel : nat) (sc : script) (stock_code : string)
    (h : Holding) (w : World) :
  items (login_result (data w)) = [] ->
  exists w' : World,
    run (initialize (S fuel)) [[put_login_result (VInt 0)]] w = (w', [], Return tt) /\
    run get_balance sc w' = (w', sc, Return (balance (data w))) /\
    run get_balance sc (event_step (write_balance stock_code h) w')
      = (event_step (write_balance stock_code h) w', sc,
         Return (<[stock_code := h]> (balance (data w)))).
Proof.
  intros Hq. eexists. split.
  { unfold initialize. rewrite initialize_loop_break by exact Hq.
    apply initialize_after_login_run. }
  split; unfold get_balance; erewrite run_done by reflexivity; reflexivity.
Qed.

Lemma event_step_order_kept (order_number : string) (e : event_action) (w : World) :
  is_Some (order_number_to_info (data w) !! order_number) ->
  is_Some (order_number_to_info (data (event_step e w)) !! order_number).
Proof.
  intros Hin. destruct e; cbn [event_step]; try exact Hin.
  - by destruct (table_of t (data w) !! key).
  - cbn. rewrite lookup_insert. case_decide; [by eexists|exact Hin].
Qed.

Lemma event_batch_order_kept (order_number : string) (es : list event_action) (w : World) :
  is_Some (order_number_to_info (data w) !! order_number) ->
  is_Some (order_number_to_info (data (event_batch es w)) !! order_number).
Proof.
  revert w. induction es as [|e es IH]; intros w Hin; [exact Hin|].
  cbn [event_batch foldl]. fold (event_batch es (event_step e w)).
  by apply IH, event_step_order_kept.
Qed.

Lemma event_batches_order_kept (order_number : string) (used : script) (w : World) :
  is_Some (order_number_to_info (data w) !! order_number) ->
  is_Some (order_number_to_info (data (event_batches used w)) !! order_number).
Proof.
  revert w. induction used as [|es used IH]; intros w Hin; [exact Hin|].
  cbn [event_batches foldl]. fold (event_batches used (event_batch es w)).
  by apply IH, event_batch_order_kept.
Qed.

Lemma event_batches_quiet (order_number : string) (used : script) (w : World) :
  quiet order_number used ->
  order_number_to_info (data (event_batches used w)) !! order_number =
  order_number_to_info (data w) !! order_number.
Proof.
  intros Hq. revert w. induction Hq as [|es used Hes Hq IH]; intros w; [reflexivity|].
  cbn [event_batches foldl]. fold (event_batches used (event_batch es w)).
  by rewrite IH, event_batch_quiet.
Qed.

(** X13.  [get_order_info] reads and does not consume, and nothing
    removes an order record.  Once a call has returned the record of an
    order, then after any traffic of the event thread a later call for
    that order returns at its first poll, with no sleep and no wait, the
    record the map holds at that moment: the same record when the event
    thread has not written this order meanwhile, and the record written
    last when it has. *)
Theorem get_order_info_again (fuel fuel2 : nat) (order_number : string)
    (sc sc' sc2 used : script) (w w' : World) (info : gmap string string) :
  run (get_order_info fuel order_number) sc w = (w', sc', Return info) ->
  let w1 := event_batches used w' in
  (exists info1 : gmap string string,
     order_number_to_info (data w1) !! order_number = Some info1 /\
     run (get_order_info (S fuel2) order_number) sc2 w1 = (w1, sc2, Return info1)) /\
  (quiet order_number used ->
   run (get_order_info (S fuel2) order_number) sc2 w1 = (w1, sc2, Return info)) /\
  (forall (es : list event_action) (info2 : gmap string string),
     let w2 := event_batch (es ++ [write_order_info order_number info2]) w1 in
     run (get_order_info (S fuel2) order_number) sc2 w2 = (w2, sc2, Return info2)).
Proof.
  intros Hrun w1.
  pose proof (get_order_info_returned _ _ _ _ _ _ _ Hrun) as Hin.
  split; [|split].
  - destruct (event_batches_order_kept order_number used w') as [info1 Hin1];
      [by eexists|].
    exists info1. split; [exact Hin1|]. by apply get_order_info_present.
  - intros Hq. apply get_order_info_present. unfold w1.
    by rewrite event_batches_quiet.
  - intros es info2 w2. apply get_order_info_present. apply event_batch_writes.
Qed.

(** ** Registering and reading a stream *)

(** X14.  [register_price_info] and [register_ask_bid_info] emit their
    signal with the list and the flag as given and return without a
    wait; they put no entry in the caches.  A [get_price_info] (or
    [get_ask_bid_info]) that follows on a stock without an entry sleeps
    until the event thread writes the first entry and returns that one;
    whether the stock was in the registered list plays no part. *)
Theorem register_then_get (codes : list string) (is_add : bool) (stock_code : string)
    (fuel : nat) (es : list event_action) (p : PriceInfo) (a : AskBidInfo)
    (sc post : script) (w : World) :
  price_info (data w) !! stock_code = None ->
  ask_bid_info (data w) !! stock_code = None ->
  let price_sig := price_register_request_signal codes is_add in
  let ask_bid_sig := ask_bid_register_request_signal codes is_add in
  run (register_price_info codes is_add) sc w = (emitted price_sig w, sc, Return tt) /\
  run (register_ask_bid_info codes is_add) sc w = (emitted ask_bid_sig w, sc, Return tt) /\
  (exists w' : World,
     run (get_price_info (S (S fuel)) stock_code)
         ((es ++ [write_price_info stock_code p]) :: post) (emitted price_sig w)
       = (w', post, Return p) /\
     trace w' = trace w ++ [Emitted price_sig; Slept 1]
                  ++ price_staleness_log stock_code p (clock w')) /\
  (exists w' : World,
     run (get_ask_bid_info (S (S fuel)) stock_code)
         ((es ++ [write_ask_bid_info stock_code a]) :: post) (emitted ask_bid_sig w)
       = (w', post, Return a) /\
     trace w' = trace w ++ [Emitted ask_bid_sig; Slept 1]
                  ++ ask_bid_staleness_log stock_code a (clock w')).
Proof.
  intros Hprice Hquote price_sig ask_bid_sig.
  split. { unfold register_price_info. erewrite run_done by reflexivity. reflexivity. }
  split. { unfold register_ask_bid_info. erewrite run_done by reflexivity. reflexivity. }
  split.
  - unfold get_price_info.
    match goal with
    | |- context [price_info_loop (S (S fuel)) stock_code ?rest] =>
        destruct (price_info_loop_found (S (S fuel)) stock_code p rest [] post es
                    (emitted price_sig w) Hprice (Forall_nil_2 _))
          as (w1 & Hrun & Htr & Hin); [cbn; lia|];
        pose proof (price_info_loop_present 0 stock_code p rest post w1 Hin) as Hloop
    end.
    exists (with_trace (trace w1 ++ price_staleness_log stock_code p (clock w1)) w1).
    split.
    + etransitivity; [exact Hrun|]. etransitivity; [symmetry; exact Hloop|].
      exact (get_price_info_present 0 stock_code p post w1 Hin).
    + cbn [trace clock with_trace]. rewrite Htr. cbn. by rewrite <- !app_assoc.
  - unfold get_ask_bid_info.
    match goal with
    | |- context [ask_bid_info_loop (S (S fuel)) stock_code ?rest] =>
        destruct (ask_bid_info_loop_found (S (S fuel)) stock_code a rest [] post es
                    (emitted ask_bid_sig w) Hquote (Forall_nil_2 _))
          as (w1 & Hrun & Htr & Hin); [cbn; lia|];
        pose proof (ask_bid_info_loop_present 0 stock_code a rest post w1 Hin) as Hloop
    end.
    exists (with_trace (trace w1 ++ ask_bid_staleness_log stock_code a (clock w1)) w1).
    split.
    + etransitivity; [exact Hrun|]. etransitivity; [symmetry; exact Hloop|].
      exact (get_ask_bid_info_present 0 stock_code a post w1 Hin).
    + cbn [trace clock with_trace]. rewrite Htr. cbn. by rewrite <- !app_assoc.
Qed.

(** ** Two requests in flight *)

Lemma tokenized_steps (m : tokenized) (w : World) :
  steps (tokenized_prefix m) (tokenized_thread m) w =
    Some (emitted (tokenized_signal request_name_of m w)
            (slot_installed (tokenized_table m) (tokenized_key request_name_of m w)
               (tokenized_named m w)),
          await_slot (tokenized_table m) (tokenized_key request_name_of m w)).
Proof. destruct m; reflexivity. Qed.

Lemma slot_installed_closed (t : table) (key : string) (w : World) :
  heap_closed w -> heap_closed (slot_installed t key w).
Proof.
  intros Hc t' key' l Hl. unfold slot_installed in *.
  cbn [data heap with_data with_heap] in *. rewrite length_app. cbn [length].
  destruct (decide (t' = t)) as [->|Hne].
  - rewrite table_of_with_table in Hl.
    destruct (decide (key' = key)) as [->|Hk].
    + rewrite lookup_insert_eq in Hl. injection Hl as <-. lia.
    + rewrite lookup_insert_ne in Hl by congruence. apply Hc in Hl. lia.
  - rewrite table_of_with_table_ne in Hl by exact Hne. apply Hc in Hl. lia.
Qed.

(** The slot of one request is still there, and still empty, when
    another request on another key has come and gone. *)
Lemma slot_survives_other_request (t t' : table) (key key' : string) (l : loc)
    (s : signal) (w : World) :
  (t' = t -> key' <> key) ->
  table_of t (data w) !! key = Some l ->
  heap w !! l = Some (Queue_new 1) ->
  slot_ready t key (slot_removed t' key' (emitted s (slot_installed t' key' w))).
Proof.
  intros Hne Hl Hq. exists l. split.
  - unfold slot_removed, emitted, slot_installed.
    cbn [data heap with_data with_heap with_trace].
    destruct (decide (t = t')) as [->|Ht].
    + rewrite !table_of_with_table.
      rewrite lookup_delete_ne by (intros ->; by apply Hne).
      rewrite lookup_insert_ne by (intros ->; by apply Hne). exact Hl.
    + rewrite !table_of_with_table_ne by exact Ht. exact Hl.
  - unfold slot_removed, emitted, slot_installed.
    cbn [data heap with_data with_heap with_trace].
    rewrite lookup_app_l by (by eapply lookup_lt_Some). exact Hq.
Qed.

(** X5.  Two tokenized requests on different keys do not take each
    other's answer, in whatever order the answers come.  Request A
    installs its slot and emits; request B then runs from start to end,
    answered before A; A's read, answered afterwards, still returns A's
    value, and no entry of either is left. *)
Theorem concurrent_requests_keep_their_answers (ma mb : tokenized) (va vb : value)
    (w : World) :
  heap_closed w ->
  let ta := tokenized_table ma in
  let ka := tokenized_key request_name_of ma w in
  let wa := emitted (tokenized_signal request_name_of ma w)
              (slot_installed ta ka (tokenized_named ma w)) in
  let tb := tokenized_table mb in
  let kb := tokenized_key request_name_of mb wa in
  (tb = ta -> kb <> ka) ->
  exists wb w' : World,
    steps (tokenized_prefix ma) (tokenized_thread ma) w = Some (wa, await_slot ta ka) /\
    run (tokenized_thread mb) [[deliver tb kb vb]] wa = (wb, [], Return vb) /\
    run (await_slot ta ka) [[deliver ta ka va]] wb = (w', [], Return va) /\
    table_of ta (data w') !! ka = None /\
    table_of tb (data w') !! kb = None.
Proof.
  intros Hc ta ka wa tb kb Hne.
  destruct (tokenized_slot ma w Hc) as (Hla & Hqa & _). fold ta ka wa in Hla, Hqa.
  set (wb4 := emitted (tokenized_signal request_name_of mb wa)
                (slot_installed tb kb (tokenized_named mb wa))).
  assert (Hreadyb : slot_ready tb kb wb4).
  { unfold wb4. apply emitted_slot_ready, slot_installed_ready. }
  assert (Hla' : table_of ta (data (tokenized_named mb wa)) !! ka = Some (length (heap w)))
    by (by rewrite tokenized_named_tables).
  assert (Hqa' : heap (tokenized_named mb wa) !! length (heap w) = Some (Queue_new 1))
    by (by rewrite tokenized_named_heap).
  pose proof (slot_survives_other_request ta tb ka kb (length (heap w))
                (tokenized_signal request_name_of mb wa) (tokenized_named mb wa)
                Hne Hla' Hqa') as Hreadya.
  fold wb4 in Hreadya.
  exists (slot_removed tb kb wb4), (slot_removed ta ka (slot_removed tb kb wb4)).
  split; [apply tokenized_steps|].
  split. { rewrite tokenized_run. fold tb kb wb4. by apply await_slot_delivered. }
  split; [by apply await_slot_delivered|].
  split; [apply slot_removed_absent|].
  unfold slot_removed at 1. cbn [data with_data].
  destruct (decide (tb = ta)) as [Heq|Hdiff].
  - rewrite Heq at 1. rewrite table_of_with_table.
    rewrite lookup_delete_ne by (intros Hk; by apply (Hne Heq)).
    rewrite <- Heq. apply slot_removed_absent.
  - rewrite table_of_with_table_ne by exact Hdiff. apply slot_removed_absent.
Qed.

(** ** A slot that is replaced while a caller still needs it (C10) *)

(** The subscript of the read is one step, and leaves the thread holding
    the queue the entry named at that moment. *)
Lemma await_slot_subscript (t : table) (key : string) (l : loc) (sc : script) (w : World) :
  table_of t (data w) !! key = Some l ->
  step (await_slot t key) w = Some (w, await_queue t key l) /\
  run (await_slot t key) sc w = run (await_queue t key l) sc w.
Proof.
  intros Hl. split.
  - unfold await_slot. cbn [step exec]. unfold exec_dict_item. by rewrite Hl.
  - unfold await_slot. erewrite run_done; [reflexivity|reflexivity|].
    cbn [exec]. unfold exec_dict_item. by rewrite Hl.
Qed.

Lemma get_matching_stocks_holds_queue (name : string) (index : Z) (w : World) :
  steps 4 (get_matching_stocks name index) w =
    Some (emitted (condition_search_request_signal name index)
            (slot_installed ConditionNameToResult name w),
          await_queue ConditionNameToResult name (length (heap w))).
Proof.
  destruct (get_matching_stocks_steps name index w) as [_ H3].
  change 4%nat with (3 + 1)%nat.
  assert (Hsplit : forall (A : Type) (n m : nat) (t : Thread A) (w0 : World),
            steps (n + m) t w0 =
            match steps n t w0 with
            | Some (w1, t1) => steps m t1 w1
            | None => None
            end).
  { intros A n. induction n as [|n IH]; intros m t w0; [reflexivity|].
    cbn [Nat.add steps]. destruct (step t w0) as [[w1 t1]|]; [apply IH|reflexivity]. }
  rewrite Hsplit, H3. cbn [steps].
  unfold await_condition_result.
  destruct (await_slot_subscript ConditionNameToResult name (length (heap w)) []
              (emitted (condition_search_request_signal name index)
                 (slot_installed ConditionNameToResult name w))) as [Hstep _].
  { unfold emitted, slot_installed. cbn. apply lookup_insert_eq. }
  by rewrite Hstep.
Qed.








End Market.

(** ** The session of the spec's scenarios, run *)

(** The boundary of the staleness check: an entry exactly 10 seconds old
    is read without a warning, one a microsecond older with the three
    warnings. *)
Example ten_seconds_is_not_stale :
  let p := mkPriceInfo (mkDatetime ordinal_1900_01_01 ((9 * 3600 + 5) * us_per_second))
             71000 70500 71200 70400 in
  let w := event_step (write_price_info "005930" p) session_start in
  let w_late := event_step (advance_clock 1) w in
  run counter_request_name (get_price_info 1 "005930") [] w = (w, [], Return p) /\
  run counter_request_name (get_price_info 1 "005930") [] w_late
    = (with_trace
         [Warned [Lit "!!! 실시간 체결 데이터의 시간이 실제 시간과 큰 차이가 있습니다. !!!"];
          Warned [Lit "!!! 주식이 상/하한가이거나 과열될 경우 일어날 수 있습니다. !!!"];
          Warned [Lit "!!! "; FStr "005930"; Lit " - "; FTime (trade_time p); Lit " vs ";
                  FTime (mkDatetime ordinal_1900_01_01 ((9 * 3600 + 15) * us_per_second + 1));
                  Lit " !!!"]]
         w_late,
       [], Return p).
Proof. split; vm_compute; reflexivity. Qed.

(** A delivery for a token that is not in the table changes nothing. *)
Example unknown_token_is_dropped :
  event_step (deliver RequestNameToTrData "GetDeposit-7" (VInt 1)) deposit_pending
    = deposit_pending.
Proof. vm_compute. reflexivity. Qed.

(** The scenario of the deposit: token GetDeposit-1, 5,000,000 delivered,
    the read returns it, a second read raises. *)
Lemma second_await_raises_witness :
  run counter_request_name (await_tr_data "GetDeposit-1")
      [[deliver RequestNameToTrData "GetDeposit-1" (VInt 5000000)]] deposit_pending
    = (deposit_read, [], Return (VInt 5000000)) /\
  run counter_request_name (await_tr_data "GetDeposit-1") [] deposit_read
    = (deposit_read, [], Raise (KeyError "GetDeposit-1")).
Proof.
  assert (H : run counter_request_name (await_tr_data "GetDeposit-1")
                [[deliver RequestNameToTrData "GetDeposit-1" (VInt 5000000)]] deposit_pending
              = (deposit_read, [], Return (VInt 5000000))) by (vm_compute; reflexivity).
  split; [exact H|].
  exact (second_await_raises counter_request_name "GetDeposit-1" _ _ [] _ _ _ H).
Defined.

(** The scenario of the stale price: a tick of 09:00:00 read at 09:00:15. *)
Lemma get_price_info_staleness_witness :
  price_info (data tick_written) !! "005930" = Some tick_at_nine /\
  date_ordinal (trade_time tick_at_nine) = ordinal_1900_01_01 /\
  exists log : list event,
    run counter_request_name (get_price_info 1 "005930") [] tick_written
      = (with_trace (trace tick_written ++ log) tick_written, [], Return tick_at_nine) /\
    log = [Warned [Lit "!!! 실시간 체결 데이터의 시간이 실제 시간과 큰 차이가 있습니다. !!!"];
           Warned [Lit "!!! 주식이 상/하한가이거나 과열될 경우 일어날 수 있습니다. !!!"];
           Warned [Lit "!!! "; FStr "005930"; Lit " - ";
                   FTime (mkDatetime ordinal_1900_01_01 (9 * 3600 * us_per_second));
                   Lit " vs ";
                   FTime (mkDatetime ordinal_1900_01_01 ((9 * 3600 + 15) * us_per_second));
                   Lit " !!!"]].
Proof.
  assert (Hin : price_info (data tick_written) !! "005930" = Some tick_at_nine)
    by (vm_compute; reflexivity).
  assert (Hdate : date_ordinal (trade_time tick_at_nine) = ordinal_1900_01_01)
    by reflexivity.
  split; [exact Hin|]. split; [exact Hdate|].
  destruct (get_price_info_staleness counter_request_name 0 "005930" tick_at_nine []
              tick_written Hin Hdate) as (log & Hrun & Hstale & _).
  exists log. split; [exact Hrun|]. apply Hstale. vm_compute. reflexivity.
Defined.

(** Two failed logins, then a success. *)
Lemma initialize_retries_until_zero_witness :
  items (login_result (data session_start)) = [] /\
  Forall (fun r => eq_int r 0 = false) [VInt (-101); VInt (-100)] /\
  (exists w' : World,
     run counter_request_name (initialize 3)
         (login_script [VInt (-101); VInt (-100); VInt 0]) session_start
       = (w', [], Return tt) /\
     trace w' = [Emitted login_request_signal; Emitted login_request_signal;
                 Emitted login_request_signal; Emitted account_number_request_signal;
                 Emitted (balance_request_signal "GetBalance-1")]).
Proof.
  assert (Hq : items (login_result (data session_start)) = []) by reflexivity.
  assert (Hrs : Forall (fun r => eq_int r 0 = false) [VInt (-101); VInt (-100)])
    by (repeat constructor).
  assert (Hfuel : (length [VInt (-101); VInt (-100)] < 3)%nat) by (simpl; lia).
  split; [exact Hq|]. split; [exact Hrs|].
  destruct (initialize_retries_until_zero counter_request_name
              [VInt (-101); VInt (-100)] 3 session_start Hq Hrs Hfuel)
    as [(w' & Hrun & Htr) _].
  exists w'. split; [exact Hrun|]. exact Htr.
Defined.

(** The record of the order is written during the third sleep. *)
Lemma get_order_info_polls_witness :
  order_number_to_info (data session_start) !! "0012345" = None /\
  quiet "0012345" [[]; [write_price_info "005930" tick_at_nine]] /\
  (exists w' : World,
     run counter_request_name (get_order_info 2 "0012345")
         [[]; [write_price_info "005930" tick_at_nine]] session_start
       = (w', [], OutOfFuel) /\
     trace w' = [Slept 1; Slept 1]) /\
  (exists w' : World,
     run counter_request_name (get_order_info 4 "0012345")
         [[]; [write_price_info "005930" tick_at_nine];
          [write_order_info "0012345" filled_order]; []] session_start
       = (w', [[]], Return filled_order) /\
     trace w' = [Slept 1; Slept 1; Slept 1]).
Proof.
  assert (Hout : order_number_to_info (data session_start) !! "0012345" = None)
    by (vm_compute; reflexivity).
  assert (Hpre : quiet "0012345" [[]; [write_price_info "005930" tick_at_nine]])
    by (repeat constructor).
  split; [exact Hout|]. split; [exact Hpre|].
  destruct (get_order_info_polls counter_request_name "0012345" _ session_start Hout Hpre)
    as [Hloop Hfound].
  split.
  - destruct (Hloop 2%nat) as (w' & Hrun & Htr). exists w'. split; [exact Hrun|exact Htr].
  - destruct (Hfound 4%nat [] filled_order [[]]) as (w' & Hrun & Htr & _); [simpl; lia|].
    exists w'. split; [exact Hrun|exact Htr].
Defined.

(** The first login succeeds; nothing is loaded when [initialize] returns. *)
Lemma initialize_does_not_await_responses_witness :
  items (login_result (data session_start)) = [] /\
  exists w' : World,
    run counter_request_name (initialize 1) [[put_login_result (VInt 0)]] session_start
      = (w', [], Return tt) /\
    balance (data w') = ∅ /\
    request_name_to_tr_data (data w') = ∅ /\
    heap w' = [].
Proof.
  assert (Hq : items (login_result (data session_start)) = []) by reflexivity.
  split; [exact Hq|].
  destruct (initialize_does_not_await_responses counter_request_name 0 session_start Hq)
    as (w1 & w' & _ & Hrun & _ & _ & Hdata & Hheap & _).
  exists w'. split; [exact Hrun|].
  rewrite Hdata, Hheap. repeat split; reflexivity.
Defined.

(** C5, against the claim as it is written: [get_order_info] returns the
    record of order 0012345, and the order map still has it. *)
Lemma get_order_info_keeps_record :
  run counter_request_name (get_order_info 1 "0012345") [] order_written
    = (order_written, [], Return filled_order) /\
  order_number_to_info (data order_written) !! "0012345" <> None.
Proof.
  split.
  - vm_compute. reflexivity.
  - vm_compute. discriminate.
Qed.

(** The deposit request of the session leaves no slot; the read of the
    order record leaves the record. *)
Lemma slots_removed_order_records_kept_witness :
  (run counter_request_name get_deposit
       [[deliver RequestNameToTrData "GetDeposit-1" (VInt 5000000)]] session_start
     = (deposit_read, [], Return (VInt 5000000)) /\
   request_name_to_tr_data (data deposit_read) !! "GetDeposit-1" = None) /\
  (run counter_request_name (get_order_info 1 "0012345") [] order_written
     = (order_written, [], Return filled_order) /\
   order_number_to_info (data order_written) !! "0012345" = Some filled_order).
Proof.
  assert (Hd : run counter_request_name get_deposit
                 [[deliver RequestNameToTrData "GetDeposit-1" (VInt 5000000)]] session_start
               = (deposit_read, [], Return (VInt 5000000))) by (vm_compute; reflexivity).
  assert (Ho : run counter_request_name (get_order_info 1 "0012345") [] order_written
               = (order_written, [], Return filled_order)) by (vm_compute; reflexivity).
  destruct (slots_removed_order_records_kept counter_request_name)
    as (_ & _ & _ & Hdeposit & _ & _ & Horder).
  split; (split; [assumption|]).
  - exact (Hdeposit _ _ _ _ _ Hd).
  - exact (Horder _ _ _ _ _ _ _ Ho).
Defined.

(** Two callers search on the same condition.  The first holds its queue
    (address 0) and waits on it; the second installs its own queue
    (address 1) under the same name.  The answer to the first search is
    delivered through the table, into the second queue: the second
    caller returns it and deletes the entry, and the first caller still
    waits, on a queue that no entry names. *)
Example overwritten_slot_starves_earlier_caller :
  exists (wa wb w3 w4 : World) (ta tb : Thread value),
    steps counter_request_name 4 (get_matching_stocks "golden-cross" 3) session_start
      = Some (wa, ta) /\
    status_of ta = Before (Get 0%nat) /\
    steps counter_request_name 3 (get_matching_stocks "golden-cross" 3) wa
      = Some (wb, tb) /\
    w3 = event_step (deliver ConditionNameToResult "golden-cross" (VStrList ["005930"])) wb /\
    heap w3 = [Queue_new 1; mkQueue 1 [VStrList ["005930"]]] /\
    step counter_request_name ta w3 = None /\
    run counter_request_name tb [] w3 = (w4, [], Return (VStrList ["005930"])) /\
    condition_name_to_result (data w4) !! "golden-cross" = None /\
    step counter_request_name ta w4 = None.
Proof.
  do 6 eexists.
  split; [reflexivity|]. split; [reflexivity|]. split; [reflexivity|].
  split; [reflexivity|]. split; [vm_compute; reflexivity|].
  split; [vm_compute; reflexivity|]. split; [vm_compute; reflexivity|].
  split; vm_compute; reflexivity.
Qed.

(** ** The extra properties, on the concrete session *)

Lemma session_start_closed : heap_closed session_start.
Proof. intros t key l Hl. destruct t; cbn in Hl; by rewrite lookup_empty in Hl. Qed.

Lemma tokenized_request_footprint_witness :
  run counter_request_name (tokenized_thread GetDeposit)
      [[deliver RequestNameToTrData "GetDeposit-1" (VInt 5000000)]] session_start
    = (deposit_read, [], Return (VInt 5000000)) /\
  table_of RequestNameToTrData (data deposit_read)
    = delete (tokenized_key counter_request_name GetDeposit session_start)
        (table_of RequestNameToTrData (data session_start)) /\
  length (heap deposit_read) = 1%nat.
Proof.
  assert (H : run counter_request_name (tokenized_thread GetDeposit)
                [[deliver RequestNameToTrData "GetDeposit-1" (VInt 5000000)]] session_start
              = (deposit_read, [], Return (VInt 5000000))) by (vm_compute; reflexivity).
  destruct (tokenized_request_footprint counter_request_name GetDeposit _ _ _ _ _ H)
    as (Ht & _ & _ & Hlen).
  split; [exact H|]. split; [exact Ht|exact Hlen].
Defined.

Lemma tokenized_request_ignores_foreign_traffic_witness :
  heap_closed session_start /\
  foreign RequestNameToTrData (counter_request_name "GetDeposit" 1) other_traffic /\
  exists w' : World,
    run counter_request_name get_deposit
        (other_traffic ++
         ([write_price_info "005930" tick_at_nine] ++
          deliver RequestNameToTrData (counter_request_name "GetDeposit" 1) (VInt 5000000)
          :: [put_login_result (VInt 0)]) :: [[]]) session_start
      = (w', [[]], Return (VInt 5000000)).
Proof.
  assert (Hpre : foreign RequestNameToTrData (counter_request_name "GetDeposit" 1)
                   other_traffic).
  { unfold foreign, foreign_batch, other_traffic.
    apply Forall_cons_2; [forall_by_computation|].
    apply Forall_cons_2; [forall_by_computation|]. apply Forall_nil_2. }
  assert (H1 : foreign_batch RequestNameToTrData (counter_request_name "GetDeposit" 1)
                 [write_price_info "005930" tick_at_nine])
    by (unfold foreign_batch; forall_by_computation).
  assert (H2 : foreign_batch RequestNameToTrData (counter_request_name "GetDeposit" 1)
                 [put_login_result (VInt 0)])
    by (unfold foreign_batch; forall_by_computation).
  split; [exact session_start_closed|]. split; [exact Hpre|].
  destruct (tokenized_request_ignores_foreign_traffic counter_request_name GetDeposit
              other_traffic [[]] _ _ (VInt 5000000) session_start
              session_start_closed Hpre H1 H2) as (w' & Hrun & _).
  exists w'. exact Hrun.
Defined.

Lemma tokenized_request_waits_without_delivery_witness :
  heap_closed session_start /\
  foreign RequestNameToTrData (counter_request_name "GetDeposit" 1) other_traffic /\
  exists (w1 : World) (rest : Thread value),
    run counter_request_name get_deposit other_traffic session_start = (w1, [], rest) /\
    status_of rest = Before (Get 0%nat).
Proof.
  assert (Hpre : foreign RequestNameToTrData (counter_request_name "GetDeposit" 1)
                   other_traffic).
  { unfold foreign, foreign_batch, other_traffic.
    apply Forall_cons_2; [forall_by_computation|].
    apply Forall_cons_2; [forall_by_computation|]. apply Forall_nil_2. }
  split; [exact session_start_closed|]. split; [exact Hpre|].
  destruct (tokenized_request_waits_without_delivery counter_request_name GetDeposit
              other_traffic session_start session_start_closed Hpre)
    as (w1 & rest & Hrun & Hst & _).
  exists w1, rest. split; [exact Hrun|exact Hst].
Defined.

Lemma concurrent_requests_keep_their_answers_witness :
  heap_closed session_start /\
  counter_request_name "GetDeposit" 2 <> counter_request_name "GetDeposit" 1 /\
  exists wb w' : World,
    run counter_request_name get_deposit
        [[deliver RequestNameToTrData (counter_request_name "GetDeposit" 2) (VInt 7)]]
        deposit_pending
      = (wb, [], Return (VInt 7)) /\
    run counter_request_name
        (await_slot RequestNameToTrData (counter_request_name "GetDeposit" 1))
        [[deliver RequestNameToTrData (counter_request_name "GetDeposit" 1) (VInt 5000000)]]
        wb
      = (w', [], Return (VInt 5000000)).
Proof.
  assert (Hne : counter_request_name "GetDeposit" 2 <> counter_request_name "GetDeposit" 1)
    by (vm_compute; discriminate).
  split; [exact session_start_closed|]. split; [exact Hne|].
  destruct (concurrent_requests_keep_their_answers counter_request_name
              GetDeposit GetDeposit (VInt 5000000) (VInt 7) session_start
              session_start_closed (fun _ => Hne))
    as (wb & w' & _ & Hb & Ha & _).
  exists wb, w'. split; [exact Hb|exact Ha].
Defined.

Lemma get_condition_returns_answer_witness :
  items (condition_list (data session_start)) = [] /\
  run counter_request_name get_condition
      [[put_condition_list (VConditions [("golden-cross", 3)])]] session_start
    = (emitted condition_request_signal session_start, [],
       Return (VConditions [("golden-cross", 3)])).
Proof.
  split; [reflexivity|].
  apply (get_condition_returns_answer counter_request_name). reflexivity.
Defined.

Lemma get_condition_answers_swap_witness :
  items (condition_list (data session_start)) = [] /\
  exists (wa wb w2 w4 : World) (ta tb : Thread value),
    steps counter_request_name 1 get_condition session_start = Some (wa, ta) /\
    steps counter_request_name 1 get_condition wa = Some (wb, tb) /\
    steps counter_request_name 1 tb
        (event_step (put_condition_list (VConditions [("first", 0)])) wb)
      = Some (w2, Return (VConditions [("first", 0)])) /\
    step counter_request_name ta w2 = None /\
    steps counter_request_name 1 ta
        (event_step (put_condition_list (VConditions [("second", 1)])) w2)
      = Some (w4, Return (VConditions [("second", 1)])).
Proof.
  split; [reflexivity|].
  destruct (get_condition_answers_swap counter_request_name
              (VConditions [("first", 0)]) (VConditions [("second", 1)])
              session_start eq_refl)
    as (wa & wb & w2 & w4 & ta & tb & H1 & H2 & H3 & H4 & H5 & _).
  exists wa, wb, w2, w4, ta, tb. repeat split; assumption.
Defined.

Lemma get_price_info_polls_witness :
  price_info (data session_start) !! "005930" = None /\
  quiet_price "005930" other_traffic /\
  (exists w' : World,
     run counter_request_name (get_price_info 5 "005930") other_traffic session_start
       = (w', [], OutOfFuel) /\
     trace w' = [Slept 1; Slept 1; Slept 1; Slept 1; Slept 1]) /\
  (exists w' : World,
     run counter_request_name (get_price_info 4 "005930")
         (other_traffic ++ ([] ++ [write_price_info "005930" tick_at_nine]) :: [[]])
         session_start
       = (w', [[]], Return tick_at_nine)).
Proof.
  assert (Hout : price_info (data session_start) !! "005930" = None)
    by (vm_compute; reflexivity).
  assert (Hpre : quiet_price "005930" other_traffic).
  { unfold quiet_price, other_traffic.
    apply Forall_cons_2; [forall_by_computation|].
    apply Forall_cons_2; [forall_by_computation|]. apply Forall_nil_2. }
  split; [exact Hout|]. split; [exact Hpre|].
  destruct (get_price_info_polls counter_request_name "005930" other_traffic
              session_start Hout Hpre) as [Hloop Hfound].
  split.
  - destruct (Hloop 5%nat) as (w' & Hrun & Htr). exists w'. split; [exact Hrun|exact Htr].
  - destruct (Hfound 4%nat [] tick_at_nine [[]]) as (w' & Hrun & _); [simpl; lia|].
    exists w'. exact Hrun.
Defined.

Lemma get_ask_bid_info_polls_witness :
  ask_bid_info (data session_start) !! "005930" = None /\
  quiet_ask_bid "005930" other_traffic /\
  (exists w' : World,
     run counter_request_name (get_ask_bid_info 5 "005930") other_traffic session_start
       = (w', [], OutOfFuel) /\
     trace w' = [Slept 1; Slept 1; Slept 1; Slept 1; Slept 1]) /\
  (exists w' : World,
     run counter_request_name (get_ask_bid_info 4 "005930")
         (other_traffic ++ ([] ++ [write_ask_bid_info "005930" quote_at_nine]) :: [[]])
         session_start
       = (w', [[]], Return quote_at_nine)).
Proof.
  assert (Hout : ask_bid_info (data session_start) !! "005930" = None)
    by (vm_compute; reflexivity).
  assert (Hpre : quiet_ask_bid "005930" other_traffic).
  { unfold quiet_ask_bid, other_traffic.
    apply Forall_cons_2; [forall_by_computation|].
    apply Forall_cons_2; [forall_by_computation|]. apply Forall_nil_2. }
  split; [exact Hout|]. split; [exact Hpre|].
  destruct (get_ask_bid_info_polls counter_request_name "005930" other_traffic
              session_start Hout Hpre) as [Hloop Hfound].
  split.
  - destruct (Hloop 5%nat) as (w' & Hrun & Htr). exists w'. split; [exact Hrun|exact Htr].
  - destruct (Hfound 4%nat [] quote_at_nine [[]]) as (w' & Hrun & _); [simpl; lia|].
    exists w'. exact Hrun.
Defined.

Lemma get_ask_bid_info_staleness_witness :
  ask_bid_info (data quote_written) !! "005930" = Some quote_at_nine /\
  date_ordinal (quote_time quote_at_nine) = ordinal_1900_01_01 /\
  exists log : list event,
    run counter_request_name (get_ask_bid_info 1 "005930") [] quote_written
      = (with_trace (trace quote_written ++ log) quote_written, [], Return quote_at_nine) /\
    log = [Warned [Lit "!!! 실시간 호가 데이터의 시간이 실제 시간과 큰 차이가 있습니다. !!!"];
           Warned [Lit "!!! 주식이 상/하한가이거나 과열될 경우 일어날 수 있습니다. !!!"];
           Warned [Lit "!!! "; FStr "005930"; Lit " - ";
                   FTime (mkDatetime ordinal_1900_01_01 (9 * 3600 * us_per_second));
                   Lit " vs ";
                   FTime (mkDatetime ordinal_1900_01_01 ((9 * 3600 + 15) * us_per_second));
                   Lit " !!!"]].
Proof.
  assert (Hin : ask_bid_info (data quote_written) !! "005930" = Some quote_at_nine)
    by (vm_compute; reflexivity).
  assert (Hdate : date_ordinal (quote_time quote_at_nine) = ordinal_1900_01_01)
    by reflexivity.
  split; [exact Hin|]. split; [exact Hdate|].
  destruct (get_ask_bid_info_staleness counter_request_name 0 "005930" quote_at_nine []
              quote_written Hin Hdate) as (log & Hrun & Hstale & _).
  exists log. split; [exact Hrun|]. apply Hstale. vm_compute. reflexivity.
Defined.

(** The tick is 15 seconds old and no warning is logged. *)
Lemma dated_price_is_never_stale_witness :
  price_info (data dated_tick_written) !! "005930" = Some dated_tick /\
  ordinal_1900_01_01 < date_ordinal (trade_time dated_tick) /\
  time_us (clock dated_tick_written) - time_us (trade_time dated_tick) = 15 * us_per_second /\
  run counter_request_name (get_price_info 1 "005930") [] dated_tick_written
    = (dated_tick_written, [], Return dated_tick).
Proof.
  assert (Hin : price_info (data dated_tick_written) !! "005930" = Some dated_tick)
    by (vm_compute; reflexivity).
  assert (Hdate : ordinal_1900_01_01 < date_ordinal (trade_time dated_tick))
    by (vm_compute; reflexivity).
  split; [exact Hin|]. split; [exact Hdate|]. split; [vm_compute; reflexivity|].
  apply (dated_price_is_never_stale counter_request_name 0 "005930" dated_tick []
           dated_tick_written Hin Hdate).
  - vm_compute. discriminate.
  - vm_compute. reflexivity.
Defined.

Lemma get_balance_after_initialize_witness :
  items (login_result (data session_start)) = [] /\
  exists w' : World,
    run counter_request_name (initialize 1) [[put_login_result (VInt 0)]] session_start
      = (w', [], Return tt) /\
    run counter_request_name get_balance [] w' = (w', [], Return ∅) /\
    run counter_request_name get_balance []
        (event_step (write_balance "005930" samsung_holding) w')
      = (event_step (write_balance "005930" samsung_holding) w', [],
         Return (<["005930" := samsung_holding]> ∅)).
Proof.
  split; [reflexivity|].
  destruct (get_balance_after_initialize counter_request_name 0 [] "005930"
              samsung_holding session_start eq_refl) as (w' & Hinit & Hget & Hget').
  exists w'. split; [exact Hinit|]. split; [exact Hget|exact Hget'].
Defined.

Lemma get_order_info_again_witness :
  run counter_request_name (get_order_info 1 "0012345") [] order_written
    = (order_written, [], Return filled_order) /\
  quiet "0012345" quiet_traffic /\
  run counter_request_name (get_order_info 1 "0012345") other_traffic
      (event_batches quiet_traffic order_written)
    = (event_batches quiet_traffic order_written, other_traffic, Return filled_order) /\
  run counter_request_name (get_order_info 1 "0012345") []
      (event_batch ([] ++ [write_order_info "0012345" cancelled_order])
         (event_batches quiet_traffic order_written))
    = (event_batch ([] ++ [write_order_info "0012345" cancelled_order])
         (event_batches quiet_traffic order_written),
       [], Return cancelled_order).
Proof.
  assert (H : run counter_request_name (get_order_info 1 "0012345") [] order_written
              = (order_written, [], Return filled_order)) by (vm_compute; reflexivity).
  assert (Hq : quiet "0012345" quiet_traffic).
  { unfold quiet, quiet_traffic.
    apply Forall_cons_2; [forall_by_computation|].
    apply Forall_cons_2; [forall_by_computation|]. apply Forall_nil_2. }
  destruct (get_order_info_again counter_request_name 1 0 "0012345" [] [] other_traffic
              quiet_traffic order_written order_written filled_order H)
    as (_ & Hsame & _).
  destruct (get_order_info_again counter_request_name 1 0 "0012345" [] [] []
              quiet_traffic order_written order_written filled_order H)
    as (_ & _ & Hnew).
  split; [exact H|]. split; [exact Hq|]. split; [exact (Hsame Hq)|].
  exact (Hnew [] cancelled_order).
Defined.

Lemma register_then_get_witness :
  price_info (data session_start) !! "005930" = None /\
  ask_bid_info (data session_start) !! "005930" = None /\
  run counter_request_name (register_price_info ["000660"] false) [] session_start
    = (emitted (price_register_request_signal ["000660"] false) session_start, [],
       Return tt) /\
  exists w' : World,
    run counter_request_name (get_price_info 2 "005930")
        (([] ++ [write_price_info "005930" tick_at_nine]) :: [])
        (emitted (price_register_request_signal ["000660"] false) session_start)
      = (w', [], Return tick_at_nine).
Proof.
  assert (Hp : price_info (data session_start) !! "005930" = None)
    by (vm_compute; reflexivity).
  assert (Hq : ask_bid_info (data session_start) !! "005930" = None)
    by (vm_compute; reflexivity).
  split; [exact Hp|]. split; [exact Hq|].
  destruct (register_then_get counter_request_name ["000660"] false "005930" 0 []
              tick_at_nine quote_at_nine [] [] session_start Hp Hq)
    as (Hreg & _ & (w' & Hrun & _) & _).
  split; [exact Hreg|]. exists w'. exact Hrun.
Defined.


